(** * Ruler API client: URL builder and request orchestrator

    A shallow embedding of
    [public/app/features/alerting/unified/api/ruler.ts] and the properties
    of its URL dialects and of its error classification.

    Layout: the JavaScript values and built-ins the module relies on
    ([Js], [Uri], [URLSearchParams]), the imported names the module does not
    define ([RulerDeps]), the module itself ([Ruler]), and then the lemmas.

    Conventions of the model.
    - A JavaScript string is the byte sequence of its UTF-8 encoding, so
      [encodeURIComponent] works byte by byte; strings with lone surrogates
      have no such encoding and are outside the model.
    - A JavaScript object is the finite map of its own properties;
      members inherited from [Object.prototype] are not modelled.
    - A number is an integer, NaN or an infinity: the only numbers the
      module inspects are HTTP statuses and panel ids.
    - An [async] function is a computation that takes the transport and the
      log of the requests sent so far, and gives a completion (returned value
      or thrown value, i.e. resolved or rejected promise) and the new log. *)

From Stdlib Require Import ZArith NArith String Ascii List Bool Lia.
From stdpp Require Import gmap strings pretty list fin_maps.

Set Warnings "-register-all".
Local Open Scope string_scope.
#[local] Arguments String.append !_ _ / : simpl nomatch.

(* ===================================================================== *)
(** ** JavaScript values *)
(* ===================================================================== *)

Module Js.

Inductive JsNumber :=
| NumInt (z : Z)
| NumNaN
| NumInf (negative : bool).

Inductive JsVal :=
| JUndefined
| JNull
| JBool (b : bool)
| JNum (n : JsNumber)
| JStr (s : string)
| JArr (elems : list JsVal)
| JObj (props : gmap string JsVal).

(** What a [throw] carries: a value (whatever the transport rejected with,
    or an object literal built by the module), an [Error] made with
    [new Error(message)], or the [TypeError] the runtime raises when a
    property of [null]/[undefined] is read or a non-function is called. *)
Inductive Thrown :=
| ThrownValue (v : JsVal)
| ThrownError (message : string)
| ThrownTypeError.

Inductive Completion (A : Type) :=
| Normal (a : A)
| Abrupt (t : Thrown).
Arguments Normal {A} a.
Arguments Abrupt {A} t.

Definition cbind {A B} (c : Completion A) (k : A -> Completion B) : Completion B :=
  match c with
  | Normal a => k a
  | Abrupt t => Abrupt t
  end.

(** [ToBoolean]. *)
Definition truthy (v : JsVal) : bool :=
  match v with
  | JUndefined | JNull => false
  | JBool b => b
  | JNum (NumInt z) => negb (z =? 0)%Z
  | JNum NumNaN => false
  | JNum (NumInf _) => true
  | JStr s => negb (String.eqb s "")
  | JArr _ | JObj _ => true
  end.

(** [String(n)] for a number; the decimal form is the one JavaScript
    prints for integers below 10^21 in absolute value. *)
Definition number_to_string (n : JsNumber) : string :=
  match n with
  | NumInt z => pretty z
  | NumNaN => "NaN"
  | NumInf false => "Infinity"
  | NumInf true => "-Infinity"
  end.

(** [Number.isFinite(v)]: no coercion, [true] only on finite numbers. *)
Definition Number_isFinite (v : JsVal) : bool :=
  match v with
  | JNum (NumInt _) => true
  | _ => false
  end.

(** [v === n] for an integer literal [n]. *)
Definition strict_eq_int (v : JsVal) (n : Z) : bool :=
  match v with
  | JNum (NumInt z) => (z =? n)%Z
  | _ => false
  end.

(** [v != null]. *)
Definition not_nullish (v : JsVal) : bool :=
  match v with
  | JUndefined | JNull => false
  | _ => true
  end.

Fixpoint prefixb (p s : string) : bool :=
  match p with
  | EmptyString => true
  | String a p' =>
      match s with
      | EmptyString => false
      | String b s' => Ascii.eqb a b && prefixb p' s'
      end
  end.

(** [s.includes(needle)] on strings. *)
Fixpoint includes (s needle : string) : bool :=
  prefixb needle s ||
  match s with
  | EmptyString => false
  | String _ s' => includes s' needle
  end.

Fixpoint array_get_from (i : nat) (l : list JsVal) (k : string) : JsVal :=
  match l with
  | [] => JUndefined
  | x :: t => if String.eqb (pretty i) k then x else array_get_from (S i) t k
  end.

Fixpoint string_get_from (i : nat) (s : string) (k : string) : JsVal :=
  match s with
  | EmptyString => JUndefined
  | String c t =>
      if String.eqb (pretty i) k then JStr (String c EmptyString)
      else string_get_from (S i) t k
  end.

(** Property read [v.k] / [v[k]]. *)
Definition Get (v : JsVal) (k : string) : Completion JsVal :=
  match v with
  | JUndefined | JNull => Abrupt ThrownTypeError
  | JBool _ | JNum _ => Normal JUndefined
  | JStr s =>
      if String.eqb k "length" then Normal (JNum (NumInt (Z.of_nat (String.length s))))
      else Normal (string_get_from 0 s k)
  | JArr l =>
      if String.eqb k "length" then Normal (JNum (NumInt (Z.of_nat (List.length l))))
      else Normal (array_get_from 0 l k)
  | JObj m => Normal (default JUndefined (m !! k))
  end.

Fixpoint indexed_from {A} (i : nat) (l : list A) : list (string * A) :=
  match l with
  | [] => []
  | x :: t => (pretty i, x) :: indexed_from (S i) t
  end.

Fixpoint chars (s : string) : list JsVal :=
  match s with
  | EmptyString => []
  | String c t => JStr (String c EmptyString) :: chars t
  end.

(** The own enumerable properties an object spread [{...v}] copies. *)
Definition spread (v : JsVal) : gmap string JsVal :=
  match v with
  | JObj m => m
  | JArr l => list_to_map (indexed_from 0 l)
  | JStr s => list_to_map (indexed_from 0 (chars s))
  | _ => ∅
  end.

(** [message?.includes(needle)]: [undefined] on a nullish receiver, the
    string or array method where there is one, a [TypeError] on any other
    receiver (its [includes] is not a function). *)
Definition optional_includes (message : JsVal) (needle : string) : Completion JsVal :=
  match message with
  | JUndefined | JNull => Normal JUndefined
  | JStr s => Normal (JBool (includes s needle))
  | JArr l =>
      Normal (JBool (existsb (fun v => match v with
                                       | JStr t => String.eqb t needle
                                       | _ => false
                                       end) l))
  | _ => Abrupt ThrownTypeError
  end.

(** [a && b] and [a || b]; the right operand is only looked at when the
    left one does not decide. *)
Definition js_and (a b : Completion JsVal) : Completion JsVal :=
  cbind a (fun v => if truthy v then b else Normal v).

Definition js_or (a b : Completion JsVal) : Completion JsVal :=
  cbind a (fun v => if truthy v then Normal v else b).

End Js.
Export Js.

#[global] Instance Completion_ret : MRet Completion := @Normal.
#[global] Instance Completion_bind : MBind Completion := fun A B k c => cbind c k.
#[global] Instance Completion_fmap : FMap Completion := fun A B f c =>
  match c with
  | Normal a => Normal (f a)
  | Abrupt t => Abrupt t
  end.

(* ===================================================================== *)
(** ** Percent-encoding *)
(* ===================================================================== *)

Module Uri.

Definition between (lo hi : N) (c : ascii) : bool :=
  ((lo <=? N_of_ascii c) && (N_of_ascii c <=? hi))%N.

Definition is_alnum (c : ascii) : bool :=
  between 48 57 c || between 65 90 c || between 97 122 c.

Fixpoint mem_ascii (c : ascii) (s : string) : bool :=
  match s with
  | EmptyString => false
  | String d t => Ascii.eqb c d || mem_ascii c t
  end.

(** The characters [encodeURIComponent] leaves alone. *)
Definition uri_unreserved (c : ascii) : bool :=
  is_alnum c || mem_ascii c "-_.!~*'()".

(** The characters the [application/x-www-form-urlencoded] serializer of
    [URLSearchParams] leaves alone. *)
Definition form_safe (c : ascii) : bool :=
  is_alnum c || mem_ascii c "*-._".

Definition hex_digit (n : N) : ascii :=
  if (n <? 10)%N then ascii_of_N (48 + n) else ascii_of_N (55 + n).

Definition percent_byte (c : ascii) : string :=
  String "%" (String (hex_digit (N_of_ascii c / 16))
               (String (hex_digit (N_of_ascii c mod 16)) EmptyString)).

Definition encode_byte (c : ascii) : string :=
  if uri_unreserved c then String c EmptyString else percent_byte c.

Fixpoint encodeURIComponent (s : string) : string :=
  match s with
  | EmptyString => EmptyString
  | String c t => encode_byte c +:+ encodeURIComponent t
  end.

Definition form_encode_byte (c : ascii) : string :=
  if form_safe c then String c EmptyString
  else if Ascii.eqb c " " then "+"
  else percent_byte c.

Fixpoint form_encode (s : string) : string :=
  match s with
  | EmptyString => EmptyString
  | String c t => form_encode_byte c +:+ form_encode t
  end.

(** *** Decoders, used to state what the encoders guarantee *)

Definition hex_value (c : ascii) : option N :=
  if between 48 57 c then Some (N_of_ascii c - 48)%N
  else if between 65 70 c then Some (N_of_ascii c - 55)%N
  else if between 97 102 c then Some (N_of_ascii c - 87)%N
  else None.

Definition unhex (a b : ascii) : option ascii :=
  match hex_value a, hex_value b with
  | Some h, Some l => Some (ascii_of_N (16 * h + l))
  | _, _ => None
  end.

(** One pass of percent-decoding; [None] on a malformed escape. *)
Fixpoint percent_decode (s : string) : option string :=
  match s with
  | EmptyString => Some EmptyString
  | String c t =>
      if Ascii.eqb c "%" then
        match t with
        | String a (String b r) =>
            match unhex a b, percent_decode r with
            | Some x, Some r' => Some (String x r')
            | _, _ => None
            end
        | _ => None
        end
      else
        match percent_decode t with
        | Some t' => Some (String c t')
        | None => None
        end
  end.

(** One pass of form-decoding: as above, and [+] stands for a space. *)
Fixpoint form_decode (s : string) : option string :=
  match s with
  | EmptyString => Some EmptyString
  | String c t =>
      if Ascii.eqb c "%" then
        match t with
        | String a (String b r) =>
            match unhex a b, form_decode r with
            | Some x, Some r' => Some (String x r')
            | _, _ => None
            end
        | _ => None
        end
      else
        match form_decode t with
        | Some t' => Some (String (if Ascii.eqb c "+" then " "%char else c) t')
        | None => None
        end
  end.

(** The pieces of [s] between the occurrences of [sep]. *)
Fixpoint split_on (sep : ascii) (s : string) : list string :=
  match s with
  | EmptyString => [EmptyString]
  | String c t =>
      if Ascii.eqb c sep then EmptyString :: split_on sep t
      else match split_on sep t with
           | [] => [String c EmptyString]
           | h :: r => String c h :: r
           end
  end.

(** Every character of [s] satisfies [p]. *)
Fixpoint forallb_string (p : ascii -> bool) (s : string) : bool :=
  match s with
  | EmptyString => true
  | String c t => p c && forallb_string p t
  end.

(** The alphabet of an encoded path segment: unreserved characters, and
    [%] followed by hexadecimal digits. *)
Definition segment_char (c : ascii) : bool :=
  uri_unreserved c || Ascii.eqb c "%".

(** The alphabet of an encoded form component. *)
Definition form_char (c : ascii) : bool :=
  form_safe c || Ascii.eqb c "+" || Ascii.eqb c "%".


End Uri.
Export Uri.

(* ===================================================================== *)
(** ** URLSearchParams *)
(* ===================================================================== *)

Module URLSearchParams.

(** The list of name-value pairs of a [URLSearchParams] object. *)
Definition t := list (string * string).

Definition remove_name (name : string) (l : t) : t :=
  List.filter (fun p => negb (String.eqb (fst p) name)) l.

(** [params.set(name, value)]: the first pair named [name] takes the
    value and the others are removed; with no such pair, one is appended. *)
Fixpoint set (name value : string) (l : t) : t :=
  match l with
  | [] => [(name, value)]
  | (k, v) :: rest =>
      if String.eqb k name then (name, value) :: remove_name name rest
      else (k, v) :: set name value rest
  end.

Definition serialize_pair (p : string * string) : string :=
  form_encode (fst p) +:+ "=" +:+ form_encode (snd p).

(** [params.toString()]. *)
Fixpoint toString (l : t) : string :=
  match l with
  | [] => ""
  | [p] => serialize_pair p
  | p :: rest => serialize_pair p +:+ "&" +:+ toString rest
  end.

(** [Object.fromEntries(params)]: a later pair overrides an earlier one. *)
Definition fromEntries (l : t) : gmap string string :=
  fold_left (fun m p => <[fst p := snd p]> m) l ∅.

(** How many pairs are named [name]. *)
Definition count_name (name : string) (l : t) : nat :=
  List.length (List.filter (fun p => String.eqb (fst p) name) l).

(** How many pairs are [name] with the value [value]. *)
Definition count_pair (name value : string) (l : t) : nat :=
  List.length
    (List.filter (fun p => String.eqb (fst p) name && String.eqb (snd p) value) l).

(** *** Reading a query string back *)

(** The [&]-separated components of a query string; the empty query has
    none. *)
Definition components (q : string) : list string :=
  if String.eqb q "" then [] else split_on "&" q.

(** How many components of the query [q] are the parameter
    [name=value] (in its serialized form). *)
Definition occurrences (name value q : string) : nat :=
  List.length
    (List.filter (fun c => String.eqb c (serialize_pair (name, value))) (components q)).

(** How many components of the query [q] are a parameter named [name]. *)
Definition occurrences_of_name (name q : string) : nat :=
  List.length
    (List.filter (fun c => prefixb (form_encode name +:+ "=") c) (components q)).

(** What follows the last [?] of a URL. The builder appends [?] and the
    serialized parameters, which hold no [?] of their own, to a path it
    does not control; so this is the query string it appended. *)
Fixpoint query_of (url : string) : option string :=
  match url with
  | EmptyString => None
  | String c t =>
      match query_of t with
      | Some q => Some q
      | None => if Ascii.eqb c "?" then Some t else None
      end
  end.

End URLSearchParams.

(* ===================================================================== *)
(** ** What [ruler.ts] imports *)
(* ===================================================================== *)

(** [getDatasourceAPIId] and [GRAFANA_RULES_SOURCE_NAME] come from
    [../utils/datasource] and [RULER_NOT_SUPPORTED_MSG] from
    [../utils/constants]; the module uses them as given, and so does the
    model. *)
Class RulerDeps := {
  getDatasourceAPIId : string -> string;
  GRAFANA_RULES_SOURCE_NAME : string;
  RULER_NOT_SUPPORTED_MSG : string;
}.

(** [RulerDataSourceConfig] of [app/types/unified-alerting]; [apiVersion] is
    only ever compared with the literals ['config'] and ['legacy'], [None]
    stands for a missing value. *)
Record RulerDataSourceConfig := {
  dataSourceName : string;
  apiVersion : option string;
  customRulerEnabled : bool;
}.

Record FetchRulerRulesFilter := {
  dashboardUID : string;
  panelId : option JsNumber;
}.

(** The transport: [getBackendSrv().fetch(request)] seen through
    [lastValueFrom], which settles with the response or with what the
    transport threw. *)
Record BackendSrvRequest := {
  method : option string;
  url : string;
  data : option JsVal;
  params : option (gmap string string);
  showErrorAlert : bool;
  showSuccessAlert : bool;
}.

Record FetchResponse := {
  response_status : Z;
  response_data : JsVal;
}.

Inductive Settled :=
| Fulfilled (response : FetchResponse)
| Rejected (error : JsVal).

Definition BackendSrv := BackendSrvRequest -> Settled.

(** An [async] function: from the transport and the requests sent so far to
    a completion and the requests sent afterwards. *)
Definition Async (A : Type) : Type :=
  BackendSrv -> list BackendSrvRequest -> Completion A * list BackendSrvRequest.

#[global] Instance Async_ret : MRet Async := fun A a _ log => (Normal a, log).
#[global] Instance Async_bind : MBind Async := fun A B k m srv log =>
  match m srv log with
  | (Normal a, log') => k a srv log'
  | (Abrupt t, log') => (Abrupt t, log')
  end.

Definition throw {A} (t : Thrown) : Async A := fun _ log => (Abrupt t, log).

Definition lift {A} (c : Completion A) : Async A := fun _ log => (c, log).

Definition try_catch {A} (body : Async A) (handler : Thrown -> Async A) : Async A :=
  fun srv log =>
    match body srv log with
    | (Normal a, log') => (Normal a, log')
    | (Abrupt t, log') => handler t srv log'
    end.

(** [await lastValueFrom(getBackendSrv().fetch(request))]. *)
Definition fetch (request : BackendSrvRequest) : Async FetchResponse :=
  fun srv log =>
    (match srv request with
     | Fulfilled response => Normal response
     | Rejected error => Abrupt (ThrownValue error)
     end, (log ++ [request])%list).

(* ===================================================================== *)
(** ** The module *)
(* ===================================================================== *)

Module Ruler.
Section WithDeps.
Context `{RulerDeps}.

(** *** [rulerUrlBuilder] *)

(** A builder instance: the constant [basePath] and the
    [rulerSearchParams] object its three closures share and mutate. *)
Record RulerUrlBuilder := {
  basePath : string;
  rulerSearchParams : URLSearchParams.t;
}.

Record RulesTarget := {
  target_url : string;
  target_params : gmap string string;
}.

Definition apiVersion_is (rulerConfig : RulerDataSourceConfig) (v : string) : bool :=
  match apiVersion rulerConfig with
  | Some a => String.eqb a v
  | None => false
  end.

Definition rulerUrlBuilder (rulerConfig : RulerDataSourceConfig) : RulerUrlBuilder :=
  let grafanaPath := "/api/ruler/" +:+ getDatasourceAPIId (dataSourceName rulerConfig) in
  let rulerPath :=
    if apiVersion_is rulerConfig "config" then "/config/v1/rules" else "/api/v1/rules" in
  let basePath := grafanaPath +:+ rulerPath in
  let p0 : URLSearchParams.t := [] in
  let p1 := if customRulerEnabled rulerConfig
            then URLSearchParams.set "source" "ruler" p0 else p0 in
  let p2 := if apiVersion_is rulerConfig "legacy"
            then URLSearchParams.set "noProxy" "true" p1 else p1 in
  {| basePath := basePath; rulerSearchParams := p2 |}.

(** What [rules(filter)] does to the shared [rulerSearchParams]. *)
Definition rules_params (filter : option FetchRulerRulesFilter)
    (p : URLSearchParams.t) : URLSearchParams.t :=
  match filter with
  | Some f =>
      if truthy (JStr (dashboardUID f)) then
        let p' := URLSearchParams.set "dashboard_uid" (dashboardUID f) p in
        match panelId f with
        | Some n =>
            if truthy (JNum n)
            then URLSearchParams.set "panel_id" (number_to_string n) p'
            else p'
        | None => p'
        end
      else p
  | None => p
  end.

Definition rules (filter : option FetchRulerRulesFilter) (b : RulerUrlBuilder)
  : RulesTarget * RulerUrlBuilder :=
  let p := rules_params filter (rulerSearchParams b) in
  ({| target_url := basePath b; target_params := URLSearchParams.fromEntries p |},
   {| basePath := basePath b; rulerSearchParams := p |}).

Definition namespace (ns : string) (b : RulerUrlBuilder) : string :=
  basePath b +:+ "/" +:+ encodeURIComponent ns
    +:+ "?" +:+ URLSearchParams.toString (rulerSearchParams b).

Definition namespaceGroup (ns group : string) (b : RulerUrlBuilder) : string :=
  basePath b +:+ "/" +:+ encodeURIComponent ns
    +:+ "/" +:+ encodeURIComponent group
    +:+ "?" +:+ URLSearchParams.toString (rulerSearchParams b).

(** A series of method calls on one builder instance. *)
Inductive BuilderCall :=
| CallRules (filter : option FetchRulerRulesFilter)
| CallNamespace (ns : string)
| CallNamespaceGroup (ns group : string).

Inductive BuilderOutput :=
| OutRules (target : RulesTarget)
| OutUrl (url : string).

Definition call (c : BuilderCall) (b : RulerUrlBuilder) : BuilderOutput * RulerUrlBuilder :=
  match c with
  | CallRules filter => let (target, b') := rules filter b in (OutRules target, b')
  | CallNamespace ns => (OutUrl (namespace ns b), b)
  | CallNamespaceGroup ns group => (OutUrl (namespaceGroup ns group b), b)
  end.

Fixpoint run (calls : list BuilderCall) (b : RulerUrlBuilder)
  : list BuilderOutput * RulerUrlBuilder :=
  match calls with
  | [] => ([], b)
  | c :: rest =>
      let (o, b') := call c b in
      let (os, b'') := run rest b' in
      (o :: os, b'')
  end.

(** *** Error classification *)

Definition isResponseError (error : JsVal) : Completion bool :=
  d ← Get error "data";
  let hasErrorMessage := not_nullish d in
  s ← Get error "status";
  let hasErrorCode := Number_isFinite s in
  mret (hasErrorCode && hasErrorMessage).

Definition data_message (error : JsVal) : Completion JsVal :=
  d ← Get error "data"; Get d "message".

Definition isRulerNotSupported (error : JsVal) : Completion JsVal :=
  js_or
    (s ← Get error "status"; mret (JBool (strict_eq_int s 404)))
    (js_and
       (s ← Get error "status"; mret (JBool (strict_eq_int s 500)))
       (m ← data_message error;
        optional_includes m
          "unexpected content type from upstream. expected YAML, got text/html")).

Definition isCortexErrorResponse (error : JsVal) : Completion JsVal :=
  js_and
    (s ← Get error "status"; mret (JBool (strict_eq_int s 404)))
    (js_or
       (m ← data_message error; optional_includes m "group does not exist")
       (m ← data_message error; optional_includes m "no rule groups found")).

(** The object literal
    [{ ...error, data: { ...error.data, message: RULER_NOT_SUPPORTED_MSG } }]. *)
Definition not_supported_error (error : JsVal) : Completion JsVal :=
  d ← Get error "data";
  mret (JObj (<["data" := JObj (<["message" := JStr RULER_NOT_SUPPORTED_MSG]> (spread d))]>
                (spread error))).

(** The [catch] clause of [rulerGetRequest]. *)
Definition rulerGetRequest_catch (empty : JsVal) (error : JsVal) : Async JsVal :=
  r ← lift (isResponseError error);
  if negb r then throw (ThrownValue error)
  else
    c ← lift (isCortexErrorResponse error);
    if truthy c then mret empty
    else
      n ← lift (isRulerNotSupported error);
      if truthy n then
        e ← lift (not_supported_error error);
        throw (ThrownValue e)
      else throw (ThrownValue error).

Definition rulerGetRequest (url : string) (empty : JsVal)
    (params : option (gmap string string)) : Async JsVal :=
  try_catch
    (response ← fetch {| method := None; url := url; data := None; params := params;
                         showErrorAlert := false; showSuccessAlert := false |};
     mret (response_data response))
    (fun t =>
       match t with
       | ThrownValue error => rulerGetRequest_catch empty error
       | _ => throw t
       end).

(** *** The exported operations *)

Definition setRulerRuleGroup (rulerConfig : RulerDataSourceConfig)
    (ns : string) (group : JsVal) : Async unit :=
  _ ← fetch {| method := Some "POST";
               url := namespace ns (rulerUrlBuilder rulerConfig);
               data := Some group; params := None;
               showErrorAlert := false; showSuccessAlert := false |};
  mret tt.

Definition fetchRulerRules (rulerConfig : RulerDataSourceConfig)
    (filter : option FetchRulerRulesFilter) : Async JsVal :=
  if match filter with
     | Some f => truthy (JStr (dashboardUID f))
     | None => false
     end
     && negb (String.eqb (dataSourceName rulerConfig) GRAFANA_RULES_SOURCE_NAME)
  then throw (ThrownError "Filtering by dashboard UID is not supported for cloud rules sources.")
  else
    let target := fst (rules filter (rulerUrlBuilder rulerConfig)) in
    rulerGetRequest (target_url target) (JObj ∅) (Some (target_params target)).

Definition fetchRulerRulesNamespace (rulerConfig : RulerDataSourceConfig)
    (ns : string) : Async JsVal :=
  result ← rulerGetRequest (namespace ns (rulerUrlBuilder rulerConfig)) (JObj ∅) None;
  lift (js_or (Get result ns) (Normal (JArr []))).

Definition fetchRulerRulesGroup (dataSourceName ns group : string) : Async JsVal :=
  rulerGetRequest
    ("/api/ruler/" +:+ getDatasourceAPIId dataSourceName +:+ "/api/v1/rules/"
       +:+ encodeURIComponent ns +:+ "/" +:+ encodeURIComponent group)
    JNull None.

Definition fetchRulerRulesGroupV2 (rulerConfig : RulerDataSourceConfig)
    (ns group : string) : Async JsVal :=
  rulerGetRequest (namespaceGroup ns group (rulerUrlBuilder rulerConfig)) JNull None.

Definition deleteRulerRulesGroup (rulerConfig : RulerDataSourceConfig)
    (ns groupName : string) : Async unit :=
  _ ← fetch {| method := Some "DELETE";
               url := namespaceGroup ns groupName (rulerUrlBuilder rulerConfig);
               data := None; params := None;
               showErrorAlert := false; showSuccessAlert := false |};
  mret tt.

Definition deleteNamespace (rulerConfig : RulerDataSourceConfig)
    (ns : string) : Async unit :=
  _ ← fetch {| method := Some "DELETE";
               url := namespace ns (rulerUrlBuilder rulerConfig);
               data := None; params := None;
               showErrorAlert := false; showSuccessAlert := false |};
  mret tt.

End WithDeps.
End Ruler.

(* ===================================================================== *)
(** ** Notions the properties are stated with *)
(* ===================================================================== *)

(** [suffix] is a suffix of [s]. *)
Definition ends_with (s suffix : string) : Prop :=
  exists p, s = p +:+ suffix.

(** The same, computed ([s.endsWith(suffix)]). *)
Fixpoint ends_withb (s suffix : string) : bool :=
  String.eqb s suffix ||
  match s with
  | EmptyString => false
  | String _ t => ends_withb t suffix
  end.

(** How many times the parameter [name=value] occurs in what a builder
    method returned: in the params map of [rules], or in the query string of
    a URL. *)
Definition output_param_count (name value : string) (o : Ruler.BuilderOutput) : nat :=
  match o with
  | Ruler.OutRules target =>
      if decide (Ruler.target_params target !! name = Some value) then 1 else 0
  | Ruler.OutUrl url =>
      match URLSearchParams.query_of url with
      | Some q => URLSearchParams.occurrences name value q
      | None => 0
      end
  end.

(** How many parameters named [name] occur in what a builder method
    returned. *)
Definition output_name_count (name : string) (o : Ruler.BuilderOutput) : nat :=
  match o with
  | Ruler.OutRules target =>
      if decide (is_Some (Ruler.target_params target !! name)) then 1 else 0
  | Ruler.OutUrl url =>
      match URLSearchParams.query_of url with
      | Some q => URLSearchParams.occurrences_of_name name q
      | None => 0
      end
  end.


(** A [rules] call whose filter reaches the [dashboard_uid] assignment. *)
Definition sets_dashboard_uid (c : Ruler.BuilderCall) : bool :=
  match c with
  | Ruler.CallRules (Some f) => truthy (JStr (dashboardUID f))
  | _ => false
  end.

(** The typed shape [FetchResponse<ErrorResponseMessage>] of a transport
    error [JObj fields]: a finite [status] and an object [data] whose
    [message], when there is one, is a string. *)
Definition transport_error (fields : gmap string JsVal) (status : Z)
    (data : gmap string JsVal) : Prop :=
  fields !! "status" = Some (JNum (NumInt status)) /\
  fields !! "data" = Some (JObj data) /\
  match data !! "message" with
  | None | Some JUndefined | Some JNull | Some (JStr _) => True
  | Some _ => False
  end.

(** The request [rulerGetRequest] hands to the transport. *)
Definition get_request (url : string) (params : option (gmap string string))
  : BackendSrvRequest :=
  {| method := None; url := url; data := None; params := params;
     showErrorAlert := false; showSuccessAlert := false |}.

(** The message of a transport error contains [phrase]. *)
Definition message_contains (data : gmap string JsVal) (phrase : string) : bool :=
  match data !! "message" with
  | Some (JStr m) => includes m phrase
  | _ => false
  end.

(** The message holds one of the two phrases by which the Cortex dialect
    reports that nothing was found. *)
Definition absent_phrases (data : gmap string JsVal) : bool :=
  message_contains data "group does not exist"
  || message_contains data "no rule groups found".

(** The message holds the phrase of a proxy that answered with an HTML page. *)
Definition html_phrase (data : gmap string JsVal) : bool :=
  message_contains data
    "unexpected content type from upstream. expected YAML, got text/html".

(** [JObj fields] with the message of its [data] replaced by the sentinel. *)
Definition with_sentinel `{RulerDeps} (fields data : gmap string JsVal) : JsVal :=
  JObj (<["data" := JObj (<["message" := JStr RULER_NOT_SUPPORTED_MSG]> data)]> fields).

(** A completion that is not an abrupt one carrying a value or an [Error]:
    the JavaScript built-ins of the model only ever raise [TypeError]. *)
Definition raises_only_TypeError {A} (c : Completion A) : Prop :=
  match c with
  | Normal _ | Abrupt ThrownTypeError => True
  | Abrupt _ => False
  end.

(** The requests the write and delete operations hand to the transport. *)
Definition write_request (url : string) (body : JsVal) : BackendSrvRequest :=
  {| method := Some "POST"; url := url; data := Some body; params := None;
     showErrorAlert := false; showSuccessAlert := false |}.

Definition delete_request (url : string) : BackendSrvRequest :=
  {| method := Some "DELETE"; url := url; data := None; params := None;
     showErrorAlert := false; showSuccessAlert := false |}.

(** The message of the [Error] that [fetchRulerRules] throws for a
    dashboard filter on a cloud rules source. *)
Definition dashboard_filter_error : Thrown :=
  ThrownError "Filtering by dashboard UID is not supported for cloud rules sources.".

(** What a call does to the [rulerSearchParams] of the instance. *)
Definition call_params (c : Ruler.BuilderCall) (p : URLSearchParams.t) : URLSearchParams.t :=
  match c with
  | Ruler.CallRules filter => Ruler.rules_params filter p
  | _ => p
  end.

(** The output [o] was made from the base path [base] and the parameters
    [p]: it is the target of [rules], or a URL with the serialized
    parameters after its [?]. *)
Definition output_from (base : string) (p : URLSearchParams.t) (o : Ruler.BuilderOutput) : Prop :=
  o = Ruler.OutRules {| Ruler.target_url := base;
                        Ruler.target_params := URLSearchParams.fromEntries p |}
  \/ exists path, o = Ruler.OutUrl (path +:+ "?" +:+ URLSearchParams.toString p).

(* ===================================================================== *)
(** ** Values for the examples *)
(* ===================================================================== *)

Module Examples.

(** The imported names as Grafana has them for the examples: the built-in
    source is called [grafana], the sentinel reads as below, and the API
    id of a data source is taken to be its name. *)
Definition deps : RulerDeps :=
  {| getDatasourceAPIId := fun name => name;
     GRAFANA_RULES_SOURCE_NAME := "grafana";
     RULER_NOT_SUPPORTED_MSG := "ruler not supported" |}.

Definition cortex : RulerDataSourceConfig :=
  {| dataSourceName := "cortex"; apiVersion := Some "legacy"; customRulerEnabled := true |}.

Definition mimir : RulerDataSourceConfig :=
  {| dataSourceName := "mimir"; apiVersion := Some "config"; customRulerEnabled := false |}.

Definition grafana : RulerDataSourceConfig :=
  {| dataSourceName := "grafana"; apiVersion := None; customRulerEnabled := false |}.

Definition panel7 : FetchRulerRulesFilter :=
  {| dashboardUID := "d1 x"; panelId := Some (NumInt 7) |}.

Definition error_data (message : string) : gmap string JsVal :=
  {[ "message" := JStr message; "error" := JStr "Not Found" ]}.

(** A transport error [{status, data: {message, error}, statusText}]. *)
Definition error_fields (status : Z) (message : string) : gmap string JsVal :=
  {[ "status" := JNum (NumInt status);
     "data" := JObj (error_data message);
     "statusText" := JStr "error" ]}.

Definition rejecting (error : JsVal) : BackendSrv := fun _ => Rejected error.

Definition answering (body : JsVal) : BackendSrv :=
  fun _ => Fulfilled {| response_status := 200; response_data := body |}.

End Examples.

(* ===================================================================== *)
(** ** Notions for the further properties *)
(* ===================================================================== *)

(** A [message] that is neither nullish nor a string nor an array: reading
    its [includes] gives no function. *)
Definition message_without_includes (m : JsVal) : bool :=
  match m with
  | JBool _ | JNum _ | JObj _ => true
  | _ => false
  end.

(** [m] is a message on which [includes(phrase)] answers [true]. *)
Definition includes_phrase (m : JsVal) (phrase : string) : Prop :=
  truthy <$> optional_includes m phrase = Normal true.

(** [s] up to its first [sep], and what follows it. *)
Fixpoint cut_at (sep : ascii) (s : string) : option (string * string) :=
  match s with
  | EmptyString => None
  | String c t =>
      if Ascii.eqb c sep then Some (EmptyString, t)
      else match cut_at sep t with
           | Some (a, b) => Some (String c a, b)
           | None => None
           end
  end.

(** Reading one component of a query string back, the way the parser of
    [URLSearchParams] does: the name ends at the first [=], a component
    without [=] is a name with an empty value, and both are form-decoded. *)
Definition read_pair (c : string) : option (string * string) :=
  match cut_at "=" c with
  | Some (n, v) =>
      match form_decode n, form_decode v with
      | Some n', Some v' => Some (n', v')
      | _, _ => None
      end
  | None =>
      match form_decode c with
      | Some n' => Some (n', EmptyString)
      | None => None
      end
  end.

Fixpoint read_pairs (cs : list string) : option URLSearchParams.t :=
  match cs with
  | [] => Some []
  | c :: rest =>
      match read_pair c, read_pairs rest with
      | Some p, Some ps => Some (p :: ps)
      | _, _ => None
      end
  end.

(** Reading a query string back into the list of its pairs. *)
Definition read_query (q : string) : option URLSearchParams.t :=
  read_pairs (URLSearchParams.components q).

(** A call of [rules]. *)
Definition is_rules_call (c : Ruler.BuilderCall) : bool :=
  match c with
  | Ruler.CallRules _ => true
  | _ => false
  end.

(** The query string of an output that is a URL. *)
Definition output_query (o : Ruler.BuilderOutput) : option string :=
  match o with
  | Ruler.OutRules _ => None
  | Ruler.OutUrl url => URLSearchParams.query_of url
  end.

(** The URL [fetchRulerRulesGroup] builds by hand. *)
Definition legacy_group_url `{RulerDeps} (dataSourceName ns group : string) : string :=
  "/api/ruler/" +:+ getDatasourceAPIId dataSourceName +:+ "/api/v1/rules/"
    +:+ encodeURIComponent ns +:+ "/" +:+ encodeURIComponent group.


(* ===================================================================== *)
(** ** Error classification *)
(* ===================================================================== *)

Section Classification.
Context `{RulerDeps}.

Lemma prefixb_spec p s : prefixb p s = true <-> exists q, s = p +:+ q.
Proof.
  revert s. induction p as [|a p IH]; intros s; simpl.
  - split; [intros _; by exists s | done].
  - destruct s as [|b s].
    + split; [done | intros [q Hq]; discriminate].
    + rewrite andb_true_iff, IH. split.
      * intros [Hab [q ->]]. apply Ascii.eqb_eq in Hab as ->. by exists q.
      * intros [q Hq]. injection Hq as -> ->. split; [apply Ascii.eqb_refl | by exists q].
Qed.

(** [includes] is the substring test. *)
Lemma includes_spec s needle :
  includes s needle = true <-> exists p q, s = p +:+ needle +:+ q.
Proof.
  induction s as [|c s IH]; simpl.
  - rewrite orb_false_r, prefixb_spec. split.
    + intros [q Hq]. by exists "", q.
    + intros [p [q Hq]]. destruct p; [by exists q | discriminate].
  - rewrite orb_true_iff, prefixb_spec, IH. split.
    + intros [[q Hq] | [p [q Hq]]].
      * by exists "", q.
      * exists (String c p), q. simpl. by rewrite Hq.
    + intros [p [q Hq]]. destruct p as [|d p]; simpl in Hq.
      * left. by exists q.
      * right. injection Hq as -> ->. by exists p, q.
Qed.

(** A typed transport error has the shape [isResponseError] tests. *)
Lemma transport_error_isResponseError fields status data :
  transport_error fields status data ->
  Ruler.isResponseError (JObj fields) = Normal true.
Proof.
  intros (Hs & Hd & _). unfold Ruler.isResponseError. simpl. by rewrite Hd, Hs.
Qed.

Lemma data_message_typed fields status data :
  transport_error fields status data ->
  Ruler.data_message (JObj fields) = Normal (default JUndefined (data !! "message")).
Proof.
  intros (_ & Hd & _). unfold Ruler.data_message. simpl. by rewrite Hd.
Qed.

(** On a typed transport error [m?.includes(phrase)] does not throw. *)
Lemma typed_includes fields status data phrase :
  transport_error fields status data ->
  (m ← Ruler.data_message (JObj fields); optional_includes m phrase)
  = Normal (match data !! "message" with
            | Some (JStr m) => JBool (includes m phrase)
            | _ => JUndefined
            end).
Proof.
  intros Ht. rewrite (data_message_typed _ _ _ Ht).
  destruct Ht as (_ & _ & Hm). by destruct (data !! "message") as [[]|].
Qed.

Lemma isCortexErrorResponse_typed fields status data :
  transport_error fields status data ->
  truthy <$> Ruler.isCortexErrorResponse (JObj fields)
  = Normal ((status =? 404)%Z && absent_phrases data).
Proof.
  intros Ht. pose proof Ht as (Hs & Hd & Hm).
  unfold Ruler.isCortexErrorResponse, js_and, js_or, absent_phrases.
  rewrite !(typed_includes _ _ _ _ Ht). unfold message_contains.
  simpl. rewrite Hs. simpl.
  destruct (status =? 404)%Z; [|done]. simpl.
  destruct (data !! "message") as [[]|]; try done. simpl.
  by destruct (includes _ _).
Qed.

Lemma isRulerNotSupported_typed fields status data :
  transport_error fields status data ->
  truthy <$> Ruler.isRulerNotSupported (JObj fields)
  = Normal ((status =? 404)%Z || ((status =? 500)%Z && html_phrase data)).
Proof.
  intros Ht. pose proof Ht as (Hs & Hd & Hm).
  unfold Ruler.isRulerNotSupported, js_and, js_or, html_phrase.
  rewrite !(typed_includes _ _ _ _ Ht). unfold message_contains.
  simpl. rewrite Hs. simpl.
  destruct (status =? 404)%Z; [done|]. simpl.
  destruct (status =? 500)%Z; [|done]. simpl.
  by destruct (data !! "message") as [[]|].
Qed.

(** The [catch] clause on a typed transport error, as a decision table. *)
Lemma rulerGetRequest_catch_typed fields status data empty srv log :
  transport_error fields status data ->
  Ruler.rulerGetRequest_catch empty (JObj fields) srv log =
    if (status =? 404)%Z && absent_phrases data then (Normal empty, log)
    else if (status =? 404)%Z || ((status =? 500)%Z && html_phrase data)
         then (Abrupt (ThrownValue (with_sentinel fields data)), log)
         else (Abrupt (ThrownValue (JObj fields)), log).
Proof.
  intros Ht.
  pose proof (transport_error_isResponseError _ _ _ Ht) as Hr.
  pose proof (isCortexErrorResponse_typed _ _ _ Ht) as Hc.
  pose proof (isRulerNotSupported_typed _ _ _ Ht) as Hn.
  destruct Ht as (Hs & Hd & Hm).
  unfold Ruler.rulerGetRequest_catch, lift, throw, mbind, Async_bind, mret, Async_ret.
  rewrite Hr. simpl.
  destruct (Ruler.isCortexErrorResponse (JObj fields)) as [c|]; [|done].
  injection Hc as ->.
  destruct ((status =? 404)%Z && absent_phrases data); [done|].
  destruct (Ruler.isRulerNotSupported (JObj fields)) as [n|]; [|done].
  injection Hn as ->.
  destruct ((status =? 404)%Z || ((status =? 500)%Z && html_phrase data)); [|done].
  unfold Ruler.not_supported_error, with_sentinel. simpl. by rewrite Hd.
Qed.

Lemma rulerGetRequest_rejected url empty params srv log error :
  srv (get_request url params) = Rejected error ->
  Ruler.rulerGetRequest url empty params srv log
  = Ruler.rulerGetRequest_catch empty error srv (log ++ [get_request url params])%list.
Proof.
  intros Hsrv. unfold Ruler.rulerGetRequest, try_catch, fetch, mbind, Async_bind.
  fold (get_request url params). by rewrite Hsrv.
Qed.

Lemma rulerGetRequest_fulfilled url empty params srv log response :
  srv (get_request url params) = Fulfilled response ->
  Ruler.rulerGetRequest url empty params srv log
  = (Normal (response_data response), (log ++ [get_request url params])%list).
Proof.
  intros Hsrv. unfold Ruler.rulerGetRequest, try_catch, fetch, mbind, Async_bind.
  fold (get_request url params). by rewrite Hsrv.
Qed.

(** *** What the classification can raise *)

Lemma raises_bind {A B} (c : Completion A) (k : A -> Completion B) :
  raises_only_TypeError c ->
  (forall a, raises_only_TypeError (k a)) ->
  raises_only_TypeError (c ≫= k).
Proof. intros Hc Hk. destruct c as [a|[]]; simpl in *; done. Qed.

Lemma raises_Get v k : raises_only_TypeError (Get v k).
Proof. destruct v; simpl; try done; by destruct (String.eqb k "length"). Qed.

Lemma raises_optional_includes m needle :
  raises_only_TypeError (optional_includes m needle).
Proof. by destruct m. Qed.

Lemma raises_js_and a b :
  raises_only_TypeError a -> raises_only_TypeError b ->
  raises_only_TypeError (js_and a b).
Proof.
  intros Ha Hb. apply (raises_bind a); [done|]. intros v. by destruct (truthy v).
Qed.

Lemma raises_js_or a b :
  raises_only_TypeError a -> raises_only_TypeError b ->
  raises_only_TypeError (js_or a b).
Proof.
  intros Ha Hb. apply (raises_bind a); [done|]. intros v. by destruct (truthy v).
Qed.

Lemma raises_status_is error n :
  raises_only_TypeError
    (s ← Get error "status"; mret (JBool (strict_eq_int s n))).
Proof. apply raises_bind; [apply raises_Get | done]. Qed.

Lemma raises_message_includes error phrase :
  raises_only_TypeError (m ← Ruler.data_message error; optional_includes m phrase).
Proof.
  apply raises_bind; [|intros; apply raises_optional_includes].
  apply raises_bind; [apply raises_Get | intros; apply raises_Get].
Qed.

Lemma raises_isResponseError error :
  raises_only_TypeError (Ruler.isResponseError error).
Proof.
  apply raises_bind; [apply raises_Get | intros d].
  apply raises_bind; [apply raises_Get | done].
Qed.

Lemma raises_isCortexErrorResponse error :
  raises_only_TypeError (Ruler.isCortexErrorResponse error).
Proof.
  apply raises_js_and; [apply raises_status_is|].
  apply raises_js_or; apply raises_message_includes.
Qed.

Lemma raises_isRulerNotSupported error :
  raises_only_TypeError (Ruler.isRulerNotSupported error).
Proof.
  apply raises_js_or; [apply raises_status_is|].
  apply raises_js_and; [apply raises_status_is | apply raises_message_includes].
Qed.

Lemma raises_not_supported_error error :
  raises_only_TypeError (Ruler.not_supported_error error).
Proof. apply raises_bind; [apply raises_Get | done]. Qed.

(** Whatever the transport does, [rulerGetRequest] sends one request and
    never throws an [Error] of its own making. *)
Lemma rulerGetRequest_outcome url empty params srv log :
  snd (Ruler.rulerGetRequest url empty params srv log)
    = (log ++ [get_request url params])%list
  /\ forall message,
      fst (Ruler.rulerGetRequest url empty params srv log)
        <> Abrupt (ThrownError message).
Proof.
  destruct (srv (get_request url params)) as [response|error] eqn:Hsrv.
  - by rewrite (rulerGetRequest_fulfilled _ _ _ _ _ _ Hsrv).
  - rewrite (rulerGetRequest_rejected _ _ _ _ _ _ Hsrv).
    unfold Ruler.rulerGetRequest_catch, lift, throw, mbind, Async_bind, mret, Async_ret.
    pose proof (raises_isResponseError error) as Hr.
    pose proof (raises_isCortexErrorResponse error) as Hc.
    pose proof (raises_isRulerNotSupported error) as Hn.
    pose proof (raises_not_supported_error error) as He.
    destruct (Ruler.isResponseError error) as [[]|[]]; simpl in *; try done.
    destruct (Ruler.isCortexErrorResponse error) as [c|[]]; simpl in *; try done.
    destruct (truthy c); [done|].
    destruct (Ruler.isRulerNotSupported error) as [n|[]]; simpl in *; try done.
    destruct (truthy n); [|done].
    by destruct (Ruler.not_supported_error error) as [e|[]].
Qed.

End Classification.

(* ===================================================================== *)
(** ** The request orchestrator *)
(* ===================================================================== *)

Section Orchestrator.
Context `{RulerDeps}.

(** C1. A transport error with status 404 whose message contains
    "group does not exist" or "no rule groups found" makes
    [rulerGetRequest] return the [empty] value it was given, after the one
    request, and nothing is thrown; this although the error also satisfies
    [isRulerNotSupported] (a 404), because [isCortexErrorResponse] is
    asked first. *)
Theorem absent_resource_returns_empty
    (url : string) (empty : JsVal) (params : option (gmap string string))
    (srv : BackendSrv) (log : list BackendSrvRequest)
    (fields data : gmap string JsVal) :
  srv (get_request url params) = Rejected (JObj fields) ->
  transport_error fields 404 data ->
  absent_phrases data = true ->
  Ruler.rulerGetRequest url empty params srv log
    = (Normal empty, (log ++ [get_request url params])%list)
  /\ truthy <$> Ruler.isRulerNotSupported (JObj fields) = Normal true.
Proof.
  intros Hsrv Ht Hp. split.
  - rewrite (rulerGetRequest_rejected _ _ _ _ _ _ Hsrv).
    rewrite (rulerGetRequest_catch_typed _ _ _ _ _ _ Ht).
    by rewrite Hp.
  - by rewrite (isRulerNotSupported_typed _ _ _ Ht).
Qed.

(** C2. A transport error with status 404 whose message contains neither
    absent-resource phrase, and a transport error with status 500 whose
    message contains the HTML-content-type phrase, make [rulerGetRequest]
    throw an object whose [data.message] is [RULER_NOT_SUPPORTED_MSG] and
    whose other fields, [status] among them, and other [data] fields are
    those of the original error. *)
Theorem unsupported_backend_rethrown_with_sentinel
    (url : string) (empty : JsVal) (params : option (gmap string string))
    (srv : BackendSrv) (log : list BackendSrvRequest)
    (fields data : gmap string JsVal) (status : Z) :
  srv (get_request url params) = Rejected (JObj fields) ->
  transport_error fields status data ->
  (status = 404%Z /\ absent_phrases data = false)
  \/ (status = 500%Z /\ html_phrase data = true) ->
  exists fields' data',
    Ruler.rulerGetRequest url empty params srv log
      = (Abrupt (ThrownValue (JObj fields')), (log ++ [get_request url params])%list)
    /\ fields' !! "data" = Some (JObj data')
    /\ data' !! "message" = Some (JStr RULER_NOT_SUPPORTED_MSG)
    /\ (forall k, k <> "message" -> data' !! k = data !! k)
    /\ (forall k, k <> "data" -> fields' !! k = fields !! k)
    /\ fields' !! "status" = Some (JNum (NumInt status)).
Proof.
  intros Hsrv Ht Hcase.
  exists (<["data" := JObj (<["message" := JStr RULER_NOT_SUPPORTED_MSG]> data)]> fields),
         (<["message" := JStr RULER_NOT_SUPPORTED_MSG]> data).
  split; [|repeat split].
  - rewrite (rulerGetRequest_rejected _ _ _ _ _ _ Hsrv).
    rewrite (rulerGetRequest_catch_typed _ _ _ _ _ _ Ht).
    destruct Hcase as [[-> Hp] | [-> Hp]]; by rewrite Hp.
  - apply lookup_insert_eq.
  - apply lookup_insert_eq.
  - intros k Hk. by rewrite lookup_insert_ne.
  - intros k Hk. by rewrite lookup_insert_ne.
  - rewrite lookup_insert_ne by done. by destruct Ht as (Hs & _).
Qed.

(** A thrown value other than [null] and [undefined] that does not have
    the shape of a transport error is thrown again as it is. *)
Lemma shapeless_value_rethrown
    (url : string) (empty : JsVal) (params : option (gmap string string))
    (srv : BackendSrv) (log : list BackendSrvRequest) (error : JsVal) :
  srv (get_request url params) = Rejected error ->
  Ruler.isResponseError error = Normal false ->
  Ruler.rulerGetRequest url empty params srv log
    = (Abrupt (ThrownValue error), (log ++ [get_request url params])%list).
Proof.
  intros Hsrv Hr. rewrite (rulerGetRequest_rejected _ _ _ _ _ _ Hsrv).
  unfold Ruler.rulerGetRequest_catch, lift, throw, mbind, Async_bind.
  by rewrite Hr.
Qed.

(** [isResponseError] answers on every value but [null] and [undefined],
    and says whether [status] is a finite number and [data] is not nullish. *)
Lemma isResponseError_not_nullish (error : JsVal) :
  not_nullish error = true ->
  exists status data,
    Get error "status" = Normal status /\ Get error "data" = Normal data /\
    Ruler.isResponseError error
      = Normal (Number_isFinite status && not_nullish data).
Proof.
  intros Hn. unfold Ruler.isResponseError.
  destruct error; try done; simpl; eauto.
Qed.

(** A typed transport error that neither classification rule matches is
    thrown again as it is. *)
Lemma unclassified_error_rethrown
    (url : string) (empty : JsVal) (params : option (gmap string string))
    (srv : BackendSrv) (log : list BackendSrvRequest)
    (fields data : gmap string JsVal) (status : Z) :
  srv (get_request url params) = Rejected (JObj fields) ->
  transport_error fields status data ->
  status <> 404%Z ->
  status <> 500%Z \/ html_phrase data = false ->
  Ruler.rulerGetRequest url empty params srv log
    = (Abrupt (ThrownValue (JObj fields)), (log ++ [get_request url params])%list).
Proof.
  intros Hsrv Ht H404 H500.
  rewrite (rulerGetRequest_rejected _ _ _ _ _ _ Hsrv).
  rewrite (rulerGetRequest_catch_typed _ _ _ _ _ _ Ht).
  apply Z.eqb_neq in H404. rewrite H404. simpl.
  destruct H500 as [H500 | H500].
  - apply Z.eqb_neq in H500. by rewrite H500.
  - rewrite H500. by rewrite andb_false_r.
Qed.

(** C3, at the values where the module departs from it. When the
    transport rejects with [undefined] or with [null], values that have
    no [status] and no [data], [isResponseError] reads [.data] of the
    value, the read raises a [TypeError], and that [TypeError] is what
    [rulerGetRequest] throws: the original value is not thrown again. *)
Theorem nullish_rejection_not_rethrown
    (url : string) (empty : JsVal) (params : option (gmap string string))
    (log : list BackendSrvRequest) :
  Ruler.rulerGetRequest url empty params (fun _ => Rejected JUndefined) log
    = (Abrupt ThrownTypeError, (log ++ [get_request url params])%list)
  /\ Ruler.rulerGetRequest url empty params (fun _ => Rejected JNull) log
    = (Abrupt ThrownTypeError, (log ++ [get_request url params])%list)
  /\ ThrownTypeError <> ThrownValue JUndefined
  /\ ThrownTypeError <> ThrownValue JNull.
Proof. done. Qed.

(** C9. The write and delete operations hand the caller whatever the
    transport rejected with, unchanged, whatever its status and message:
    no classification is applied, and no error is turned into a returned
    value. *)
Theorem writes_and_deletes_surface_errors
    (rulerConfig : RulerDataSourceConfig) (ns groupName : string) (group : JsVal)
    (srv : BackendSrv) (log : list BackendSrvRequest) (error : JsVal) :
  (srv (write_request (Ruler.namespace ns (Ruler.rulerUrlBuilder rulerConfig)) group)
     = Rejected error ->
   Ruler.setRulerRuleGroup rulerConfig ns group srv log
     = (Abrupt (ThrownValue error),
        (log ++ [write_request (Ruler.namespace ns (Ruler.rulerUrlBuilder rulerConfig))
                   group])%list))
  /\ (srv (delete_request
             (Ruler.namespaceGroup ns groupName (Ruler.rulerUrlBuilder rulerConfig)))
       = Rejected error ->
     Ruler.deleteRulerRulesGroup rulerConfig ns groupName srv log
       = (Abrupt (ThrownValue error),
          (log ++ [delete_request
                     (Ruler.namespaceGroup ns groupName
                        (Ruler.rulerUrlBuilder rulerConfig))])%list))
  /\ (srv (delete_request (Ruler.namespace ns (Ruler.rulerUrlBuilder rulerConfig)))
       = Rejected error ->
     Ruler.deleteNamespace rulerConfig ns srv log
       = (Abrupt (ThrownValue error),
          (log ++ [delete_request
                     (Ruler.namespace ns (Ruler.rulerUrlBuilder rulerConfig))])%list)).
Proof.
  repeat split; intros Hsrv.
  - unfold Ruler.setRulerRuleGroup, fetch, mbind, Async_bind.
    fold (write_request (Ruler.namespace ns (Ruler.rulerUrlBuilder rulerConfig)) group).
    by rewrite Hsrv.
  - unfold Ruler.deleteRulerRulesGroup, fetch, mbind, Async_bind.
    fold (delete_request
            (Ruler.namespaceGroup ns groupName (Ruler.rulerUrlBuilder rulerConfig))).
    by rewrite Hsrv.
  - unfold Ruler.deleteNamespace, fetch, mbind, Async_bind.
    fold (delete_request (Ruler.namespace ns (Ruler.rulerUrlBuilder rulerConfig))).
    by rewrite Hsrv.
Qed.


(** C4. [fetchRulerRules] with a filter whose [dashboardUID] is set (a
    non-empty string) on a source other than [GRAFANA_RULES_SOURCE_NAME]
    throws its [Error] and the log of requests is left as it was: the
    transport was not called. With the built-in source, or without a
    [dashboardUID] to filter by, one request is sent and no [Error] is
    thrown. *)
Theorem dashboard_filter_needs_builtin_source
    (rulerConfig : RulerDataSourceConfig) (filter : option FetchRulerRulesFilter)
    (srv : BackendSrv) (log : list BackendSrvRequest) :
  (forall f, filter = Some f -> dashboardUID f <> "" ->
     dataSourceName rulerConfig <> GRAFANA_RULES_SOURCE_NAME ->
     Ruler.fetchRulerRules rulerConfig filter srv log
       = (Abrupt dashboard_filter_error, log))
  /\ (dataSourceName rulerConfig = GRAFANA_RULES_SOURCE_NAME
     \/ filter = None
     \/ (exists f, filter = Some f /\ dashboardUID f = "") ->
     (forall message,
        fst (Ruler.fetchRulerRules rulerConfig filter srv log)
          <> Abrupt (ThrownError message))
     /\ exists request,
         snd (Ruler.fetchRulerRules rulerConfig filter srv log)
           = (log ++ [request])%list).
Proof.
  split.
  - intros f -> Huid Hsrc. unfold Ruler.fetchRulerRules. simpl.
    apply String.eqb_neq in Huid, Hsrc. by rewrite Huid, Hsrc.
  - intros Hcase.
    assert ((match filter with
             | Some f => truthy (JStr (dashboardUID f))
             | None => false
             end
             && negb (String.eqb (dataSourceName rulerConfig) GRAFANA_RULES_SOURCE_NAME))
            = false) as Hguard.
    { destruct Hcase as [Hsrc | [-> | [f [-> Huid]]]].
      - apply String.eqb_eq in Hsrc. rewrite Hsrc. by rewrite andb_false_r.
      - done.
      - simpl. by rewrite Huid. }
    unfold Ruler.fetchRulerRules. rewrite Hguard.
    match goal with
    | |- context [Ruler.rulerGetRequest ?u ?e ?p srv log] =>
        pose proof (rulerGetRequest_outcome u e p srv log) as [Hlog Herr]
    end.
    split; [done | by eexists].
Qed.

End Orchestrator.

(* ===================================================================== *)
(** ** Strings *)
(* ===================================================================== *)

Section Strings.

Lemma app_assoc_s (a b c : string) : (a +:+ b) +:+ c = a +:+ (b +:+ c).
Proof. induction a as [|x a IH]; simpl; [done | by rewrite IH]. Qed.

Lemma app_length_s (a b : string) :
  String.length (a +:+ b) = String.length a + String.length b.
Proof. induction a as [|x a IH]; simpl; [done | by rewrite IH]. Qed.

(** Two ways of cutting one string at the same distance from its end
    agree. *)
Lemma app_inv_same_tail_length (a a' b b' : string) :
  a +:+ b = a' +:+ b' ->
  String.length b = String.length b' ->
  a = a' /\ b = b'.
Proof.
  revert a'. induction a as [|x a IH]; intros [|x' a'] Heq Hlen; simpl in *.
  - done.
  - apply (f_equal String.length) in Heq. simpl in Heq.
    rewrite app_length_s in Heq. lia.
  - apply (f_equal String.length) in Heq. simpl in Heq.
    rewrite app_length_s in Heq. lia.
  - injection Heq as -> Heq. destruct (IH _ Heq Hlen) as [-> ->]. done.
Qed.

Lemma ends_withb_spec (s suffix : string) :
  ends_withb s suffix = true <-> ends_with s suffix.
Proof.
  unfold ends_with. induction s as [|c s IH]; cbn [ends_withb].
  - rewrite orb_false_r, String.eqb_eq. split.
    + intros <-. by exists "".
    + intros [[|x p] Hp]; simpl in Hp; [done | discriminate].
  - rewrite orb_true_iff, String.eqb_eq, IH. split.
    + intros [<- | [p ->]]; [by exists "" | by exists (String c p)].
    + intros [[|x p] Hp]; simpl in Hp; [by left | right].
      injection Hp as -> ->. by exists p.
Qed.

Lemma forallb_string_app (p : ascii -> bool) (a b : string) :
  forallb_string p (a +:+ b) = forallb_string p a && forallb_string p b.
Proof.
  induction a as [|x a IH]; simpl; [done | by rewrite IH, andb_assoc].
Qed.

End Strings.

(* ===================================================================== *)
(** ** The URL builder: base path *)
(* ===================================================================== *)

Section BasePath.
Context `{RulerDeps}.

Lemma api_path_is_not_config_path (p q : string) :
  p +:+ "/config/v1/rules" <> q +:+ "/api/v1/rules".
Proof.
  change "/config/v1/rules" with ("/co" +:+ "nfig/v1/rules").
  rewrite <- app_assoc_s. intros Heq.
  by destruct (app_inv_same_tail_length _ _ _ _ Heq eq_refl) as [_ ?].
Qed.

(** C6. The base path is [/api/ruler/], the data-source identifier and
    then the dialect path; the dialect path is [/config/v1/rules] when
    [apiVersion] is ['config'] and [/api/v1/rules] for every other value,
    so the base path ends in [/config/v1/rules] exactly when [apiVersion]
    is ['config'], and ends in [/api/v1/rules] otherwise. *)
Theorem base_path_follows_dialect (rulerConfig : RulerDataSourceConfig) :
  let base := Ruler.basePath (Ruler.rulerUrlBuilder rulerConfig) in
  let id := getDatasourceAPIId (dataSourceName rulerConfig) in
  (ends_with base "/config/v1/rules" <-> apiVersion rulerConfig = Some "config")
  /\ (apiVersion rulerConfig <> Some "config" -> ends_with base "/api/v1/rules")
  /\ (apiVersion rulerConfig = Some "config" ->
      base = "/api/ruler/" +:+ id +:+ "/config/v1/rules")
  /\ (apiVersion rulerConfig <> Some "config" ->
      base = "/api/ruler/" +:+ id +:+ "/api/v1/rules").
Proof.
  intros base id.
  assert (base = ("/api/ruler/" +:+ id) +:+
                 (if Ruler.apiVersion_is rulerConfig "config"
                  then "/config/v1/rules" else "/api/v1/rules")) as Hbase by done.
  assert (Ruler.apiVersion_is rulerConfig "config" = true
          <-> apiVersion rulerConfig = Some "config") as Hcfg.
  { unfold Ruler.apiVersion_is. destruct (apiVersion rulerConfig) as [a|]; [|done].
    rewrite String.eqb_eq. split; [by intros -> | by intros [= ->]]. }
  destruct (Ruler.apiVersion_is rulerConfig "config") eqn:Hv.
  - assert (apiVersion rulerConfig = Some "config") as Ha by by apply Hcfg.
    repeat split; try done.
    + intros _. by exists ("/api/ruler/" +:+ id).
  - assert (apiVersion rulerConfig <> Some "config") as Ha.
    { intros Ha. apply Hcfg in Ha. discriminate. }
    repeat split; try done.
    + intros [p Hp]. rewrite Hbase in Hp. symmetry in Hp.
      by apply api_path_is_not_config_path in Hp.
    + intros _. by exists ("/api/ruler/" +:+ id).
Qed.

End BasePath.

(* ===================================================================== *)
(** ** Percent-encoding: what the encoders guarantee *)
(* ===================================================================== *)

Section Encoding.

Ltac each_byte c := destruct c as [[] [] [] [] [] [] [] []].

Lemma percent_decode_byte (c : ascii) (rest : string) :
  percent_decode (encode_byte c +:+ rest)
  = match percent_decode rest with
    | Some r => Some (String c r)
    | None => None
    end.
Proof. each_byte c; reflexivity. Qed.

Lemma form_decode_byte (c : ascii) (rest : string) :
  form_decode (form_encode_byte c +:+ rest)
  = match form_decode rest with
    | Some r => Some (String c r)
    | None => None
    end.
Proof. each_byte c; reflexivity. Qed.

Lemma encode_byte_alphabet (c : ascii) :
  forallb_string segment_char (encode_byte c) = true.
Proof. each_byte c; reflexivity. Qed.

Lemma form_encode_byte_alphabet (c : ascii) :
  forallb_string form_char (form_encode_byte c) = true.
Proof. each_byte c; reflexivity. Qed.

(** Decoding an encoded segment once gives the segment back. *)
Lemma percent_decode_encodeURIComponent (s : string) :
  percent_decode (encodeURIComponent s) = Some s.
Proof.
  induction s as [|c s IH]; [done|].
  cbn [encodeURIComponent].
  by rewrite percent_decode_byte, IH.
Qed.

Lemma form_decode_form_encode (s : string) :
  form_decode (form_encode s) = Some s.
Proof.
  induction s as [|c s IH]; [done|].
  cbn [form_encode]. by rewrite form_decode_byte, IH.
Qed.

Lemma form_encode_inj (s s' : string) : form_encode s = form_encode s' -> s = s'.
Proof.
  intros Heq. apply (f_equal form_decode) in Heq.
  rewrite !form_decode_form_encode in Heq. by injection Heq.
Qed.

Lemma encodeURIComponent_alphabet (s : string) :
  forallb_string segment_char (encodeURIComponent s) = true.
Proof.
  induction s as [|c s IH]; [done|].
  cbn [encodeURIComponent].
  by rewrite forallb_string_app, encode_byte_alphabet, IH.
Qed.

Lemma form_encode_alphabet (s : string) :
  forallb_string form_char (form_encode s) = true.
Proof.
  induction s as [|c s IH]; [done|].
  cbn [form_encode]. by rewrite forallb_string_app, form_encode_byte_alphabet, IH.
Qed.

(** A character outside an alphabet does not occur in a string over it. *)
Lemma not_in_alphabet (p : ascii -> bool) (c : ascii) (s : string) :
  p c = false -> forallb_string p s = true -> mem_ascii c s = false.
Proof.
  intros Hc. induction s as [|x s IH]; simpl; [done|].
  rewrite andb_true_iff. intros [Hx Hs]. rewrite (IH Hs), orb_false_r.
  destruct (Ascii.eqb_spec c x) as [->|]; [congruence | done].
Qed.

(** *** Cutting a string at a separator *)

Lemma split_on_free (sep : ascii) (a : string) :
  mem_ascii sep a = false -> split_on sep a = [a].
Proof.
  induction a as [|x a IH]; simpl; [done|].
  rewrite orb_false_iff. intros [Hx Ha].
  rewrite Ascii.eqb_sym, Hx. by rewrite (IH Ha).
Qed.

Lemma split_on_app (sep : ascii) (a b : string) :
  mem_ascii sep a = false ->
  split_on sep (a +:+ String sep b) = a :: split_on sep b.
Proof.
  induction a as [|x a IH]; simpl.
  - intros _. by rewrite Ascii.eqb_refl.
  - rewrite orb_false_iff. intros [Hx Ha].
    rewrite Ascii.eqb_sym, Hx. by rewrite (IH Ha).
Qed.

Lemma cut_at_first_unique (sep : ascii) (a a' x y : string) :
  mem_ascii sep a = false -> mem_ascii sep a' = false ->
  a +:+ String sep x = a' +:+ String sep y ->
  a = a' /\ x = y.
Proof.
  revert a'. induction a as [|c a IH]; intros [|c' a']; simpl.
  - intros _ _ [= ->]. done.
  - rewrite orb_false_iff. intros _ [Hc' _] [= <- _].
    by rewrite Ascii.eqb_refl in Hc'.
  - rewrite orb_false_iff. intros [Hc _] _ [= -> _].
    by rewrite Ascii.eqb_refl in Hc.
  - rewrite !orb_false_iff. intros [_ Ha] [_ Ha'] [= -> Heq].
    by destruct (IH _ Ha Ha' Heq) as [-> ->].
Qed.

(** What follows the last [?] of [path?query] is [query], when the query
    has no [?]. *)
Lemma query_of_app (path query : string) :
  mem_ascii "?" query = false ->
  URLSearchParams.query_of (path +:+ "?" +:+ query) = Some query.
Proof.
  intros Hq.
  assert (URLSearchParams.query_of query = None) as Hnone.
  { induction query as [|c q IH]; cbn [mem_ascii URLSearchParams.query_of] in *; [done|].
    apply orb_false_iff in Hq as [Hc Hq]. rewrite (IH Hq).
    by rewrite Ascii.eqb_sym, Hc. }
  induction path as [|c p IH].
  - cbn [String.append URLSearchParams.query_of]. rewrite Hnone. done.
  - change (String c p +:+ "?" +:+ query) with (String c (p +:+ "?" +:+ query)).
    cbn [URLSearchParams.query_of]. by rewrite IH.
Qed.

End Encoding.

(* ===================================================================== *)
(** ** URLSearchParams: [set], [toString] and [fromEntries] *)
(* ===================================================================== *)

Section SearchParams.
Import URLSearchParams.

Implicit Types (p : URLSearchParams.t) (name value : string).

(** *** [set] *)

Lemma count_name_remove_name name p : count_name name (remove_name name p) = 0.
Proof.
  unfold count_name, remove_name. induction p as [|[k v] p IH]; simpl; [done|].
  destruct (String.eqb k name) eqn:Hk; simpl; [done|]. by rewrite Hk.
Qed.

Lemma count_name_remove_other name name' p :
  name' <> name -> count_name name' (remove_name name p) = count_name name' p.
Proof.
  intros Hne. unfold count_name, remove_name.
  induction p as [|[k v] p IH]; simpl; [done|].
  destruct (String.eqb k name) eqn:Hk; simpl.
  - apply String.eqb_eq in Hk as ->.
    apply not_eq_sym, String.eqb_neq in Hne. by rewrite Hne.
  - destruct (String.eqb k name'); simpl; by rewrite IH.
Qed.

Lemma count_pair_le_name name value p : count_pair name value p <= count_name name p.
Proof.
  unfold count_pair, count_name. induction p as [|[k v] p IH]; simpl; [done|].
  destruct (String.eqb k name), (String.eqb v value); simpl; lia.
Qed.

Lemma count_pair_remove_other name name' value' p :
  name' <> name ->
  count_pair name' value' (remove_name name p) = count_pair name' value' p.
Proof.
  intros Hne. unfold count_pair, remove_name.
  induction p as [|[k v] p IH]; simpl; [done|].
  destruct (String.eqb k name) eqn:Hk; simpl.
  - apply String.eqb_eq in Hk as ->.
    apply not_eq_sym, String.eqb_neq in Hne. by rewrite Hne.
  - destruct (String.eqb k name' && String.eqb v value'); simpl; by rewrite IH.
Qed.

(** After [set(name, value)] there is one pair named [name]. *)
Lemma count_name_set name value p : count_name name (set name value p) = 1.
Proof.
  induction p as [|[k v] p IH]; simpl.
  - unfold count_name. simpl. by rewrite String.eqb_refl.
  - destruct (String.eqb k name) eqn:Hk.
    + pose proof (count_name_remove_name name p) as Hr.
      unfold count_name in *. simpl. rewrite String.eqb_refl. simpl. by rewrite Hr.
    + unfold count_name in *. simpl. by rewrite Hk.
Qed.

(** ... and it has the value [value]. *)
Lemma count_pair_set name value p : count_pair name value (set name value p) = 1.
Proof.
  induction p as [|[k v] p IH]; simpl.
  - unfold count_pair. simpl. by rewrite !String.eqb_refl.
  - destruct (String.eqb k name) eqn:Hk.
    + pose proof (count_pair_le_name name value (remove_name name p)) as Hle.
      rewrite count_name_remove_name in Hle.
      unfold count_pair in *. simpl. rewrite !String.eqb_refl. simpl. lia.
    + unfold count_pair in *. simpl. by rewrite Hk.
Qed.

(** [set(name, _)] leaves the pairs of the other names as they were. *)
Lemma count_name_set_other name value name' p :
  name' <> name -> count_name name' (set name value p) = count_name name' p.
Proof.
  intros Hne. pose proof Hne as Hne'. apply not_eq_sym, String.eqb_neq in Hne'.
  induction p as [|[k v] p IH]; simpl.
  - unfold count_name. simpl. by rewrite Hne'.
  - destruct (String.eqb k name) eqn:Hk.
    + apply String.eqb_eq in Hk as ->.
      pose proof (count_name_remove_other name name' p Hne) as Hr.
      unfold count_name in *. simpl. by rewrite Hne'.
    + unfold count_name in *. simpl. destruct (String.eqb k name'); simpl; by rewrite IH.
Qed.

Lemma count_pair_set_other name value name' value' p :
  name' <> name ->
  count_pair name' value' (set name value p) = count_pair name' value' p.
Proof.
  intros Hne. pose proof Hne as Hne'. apply not_eq_sym, String.eqb_neq in Hne'.
  induction p as [|[k v] p IH]; simpl.
  - unfold count_pair. simpl. by rewrite Hne'.
  - destruct (String.eqb k name) eqn:Hk.
    + apply String.eqb_eq in Hk as ->.
      pose proof (count_pair_remove_other name name' value' p Hne) as Hr.
      unfold count_pair in *. simpl. by rewrite Hne'.
    + unfold count_pair in *. simpl.
      destruct (String.eqb k name' && String.eqb v value'); simpl; by rewrite IH.
Qed.

(** *** [fromEntries] *)

Lemma fold_insert_absent name p (m : gmap string string) :
  count_name name p = 0 ->
  fold_left (fun m q => <[fst q := snd q]> m) p m !! name = m !! name.
Proof.
  revert m. unfold count_name. induction p as [|[k v] p IH]; intros m; simpl; [done|].
  destruct (String.eqb k name) eqn:Hk; simpl; [done|].
  intros Hc. rewrite (IH _ Hc). apply String.eqb_neq in Hk. by rewrite lookup_insert_ne.
Qed.

Lemma fold_insert_once name value p (m : gmap string string) :
  count_name name p = 1 -> count_pair name value p = 1 ->
  fold_left (fun m q => <[fst q := snd q]> m) p m !! name = Some value.
Proof.
  revert m. unfold count_name, count_pair.
  induction p as [|[k v] p IH]; intros m; simpl; [done|].
  destruct (String.eqb k name) eqn:Hk; simpl.
  - intros Hn. injection Hn as Hn.
    rewrite (fold_insert_absent name p _ Hn).
    apply String.eqb_eq in Hk as ->. rewrite lookup_insert_eq.
    destruct (String.eqb v value) eqn:Hv; simpl.
    + apply String.eqb_eq in Hv as ->. done.
    + intros Hp.
      pose proof (count_pair_le_name name value p) as Hle.
      unfold count_pair, count_name in Hle. lia.
  - intros Hn Hp. by apply IH.
Qed.

Lemma fold_insert_other_value name value p (m : gmap string string) :
  count_name name p = 1 -> count_pair name value p = 0 ->
  fold_left (fun m q => <[fst q := snd q]> m) p m !! name <> Some value.
Proof.
  revert m. unfold count_name, count_pair.
  induction p as [|[k v] p IH]; intros m; simpl; [done|].
  destruct (String.eqb k name) eqn:Hk; simpl.
  - intros Hn. injection Hn as Hn.
    rewrite (fold_insert_absent name p _ Hn).
    apply String.eqb_eq in Hk as ->. rewrite lookup_insert_eq.
    destruct (String.eqb v value) eqn:Hv; simpl; [done|].
    apply String.eqb_neq in Hv. intros _ [= ?]. done.
  - intros Hn Hp. by apply IH.
Qed.

(** With at most one pair named [name], the object [fromEntries] makes has
    the property [name] with the value [value] exactly when the pair
    [name, value] is there, and has a property [name] exactly when a pair
    is named so. *)
Lemma fromEntries_counts name value p :
  count_name name p <= 1 ->
  (if decide (fromEntries p !! name = Some value) then 1 else 0)
    = count_pair name value p
  /\ (if decide (is_Some (fromEntries p !! name)) then 1 else 0) = count_name name p.
Proof.
  intros Hle. unfold fromEntries.
  pose proof (count_pair_le_name name value p) as Hpn.
  destruct (count_name name p) as [|[|n]] eqn:Hn; [| |lia].
  - rewrite (fold_insert_absent name p ∅ Hn), lookup_empty.
    split; case_decide as Hd; try done; try lia.
  - destruct (count_pair name value p) as [|[|n]] eqn:Hp; [| |lia].
    + pose proof (fold_insert_other_value name value p ∅ Hn Hp) as Hne.
      split; [by case_decide|].
      (* some value is there, as one pair is named [name] *)
      clear Hne Hp Hpn Hle. case_decide as Hs; [done|]. exfalso. apply Hs. clear Hs.
      revert Hn. generalize (∅ : gmap string string). unfold count_name.
      induction p as [|[k v] p IH]; intros m; simpl; [done|].
      destruct (String.eqb k name) eqn:Hk; simpl.
      * intros [= Hn]. rewrite (fold_insert_absent name p _ Hn).
        apply String.eqb_eq in Hk as ->. rewrite lookup_insert_eq. by eexists.
      * intros Hn. by apply IH.
    + rewrite (fold_insert_once name value p ∅ Hn Hp).
      split; case_decide as Hd; try done. exfalso. apply Hd. by eexists.
Qed.

(** *** [toString] *)

Lemma mem_ascii_app (c : ascii) (a b : string) :
  mem_ascii c (a +:+ b) = mem_ascii c a || mem_ascii c b.
Proof. induction a as [|x a IH]; simpl; [done | by rewrite IH, orb_assoc]. Qed.

Lemma form_encode_free (c : ascii) (s : string) :
  form_char c = false -> mem_ascii c (form_encode s) = false.
Proof. intros Hc. apply (not_in_alphabet form_char); [done | apply form_encode_alphabet]. Qed.

Lemma serialize_pair_free (c : ascii) (q : string * string) :
  form_char c = false -> Ascii.eqb c "=" = false ->
  mem_ascii c (serialize_pair q) = false.
Proof.
  intros Hf He. unfold serialize_pair. rewrite !mem_ascii_app, !form_encode_free by done.
  cbn [mem_ascii]. by rewrite He.
Qed.

Lemma serialize_pair_has_equals (q : string * string) :
  mem_ascii "=" (serialize_pair q) = true.
Proof.
  unfold serialize_pair. rewrite !mem_ascii_app. cbn [mem_ascii].
  rewrite Ascii.eqb_refl. by rewrite orb_true_r.
Qed.

Lemma toString_cons (q q' : string * string) p :
  toString (q :: q' :: p) = serialize_pair q +:+ String "&" (toString (q' :: p)).
Proof. done. Qed.

(** A serialized query string has no [?]. *)
Lemma toString_no_question_mark p : mem_ascii "?" (toString p) = false.
Proof.
  induction p as [|q [|q' p] IH]; [done | |].
  - by apply serialize_pair_free.
  - rewrite toString_cons, mem_ascii_app, serialize_pair_free by done.
    cbn [mem_ascii orb]. rewrite IH. done.
Qed.

Lemma toString_nonempty (q : string * string) p : String.eqb (toString (q :: p)) "" = false.
Proof.
  assert (mem_ascii "=" (toString (q :: p)) = true) as Hm.
  { destruct p as [|q' p]; [apply serialize_pair_has_equals|].
    by rewrite toString_cons, mem_ascii_app, serialize_pair_has_equals. }
  apply String.eqb_neq. intros Heq. by rewrite Heq in Hm.
Qed.

(** Cut at its [&], a serialized query string gives the serialized pairs
    back, one component a pair. *)
Lemma components_toString p : components (toString p) = List.map serialize_pair p.
Proof.
  unfold components. destruct p as [|q p]; [done|].
  rewrite toString_nonempty. revert q.
  induction p as [|q' p IH]; intros q.
  - cbn [toString List.map]. by apply split_on_free, serialize_pair_free.
  - rewrite toString_cons, split_on_app by by apply serialize_pair_free.
    rewrite IH. done.
Qed.

Lemma serialize_pair_inj (k v k' v' : string) :
  serialize_pair (k, v) = serialize_pair (k', v') -> k = k' /\ v = v'.
Proof.
  unfold serialize_pair. cbn [fst snd]. intros Heq.
  apply cut_at_first_unique in Heq as [Hk Hv]; try by apply form_encode_free.
  split; by apply form_encode_inj.
Qed.

Lemma serialize_pair_eqb (k v name value : string) :
  String.eqb (serialize_pair (k, v)) (serialize_pair (name, value))
  = String.eqb k name && String.eqb v value.
Proof.
  destruct (String.eqb_spec (serialize_pair (k, v)) (serialize_pair (name, value)))
    as [Heq|Hne].
  - apply serialize_pair_inj in Heq as [-> ->]. by rewrite !String.eqb_refl.
  - symmetry. apply andb_false_iff.
    destruct (String.eqb_spec k name) as [->|]; [|by left].
    destruct (String.eqb_spec v value) as [->|]; [done | by right].
Qed.

Lemma serialize_pair_named (k v name : string) :
  prefixb (form_encode name +:+ "=") (serialize_pair (k, v)) = String.eqb k name.
Proof.
  destruct (String.eqb_spec k name) as [->|Hne].
  - apply prefixb_spec. exists (form_encode v).
    unfold serialize_pair. cbn [fst snd]. by rewrite app_assoc_s.
  - apply not_true_is_false. intros [q Hq]%prefixb_spec. apply Hne.
    unfold serialize_pair in Hq. cbn [fst snd] in Hq. rewrite app_assoc_s in Hq.
    apply cut_at_first_unique in Hq as [Hk _]; try by apply form_encode_free.
    by apply form_encode_inj.
Qed.

(** The parameter [name=value] occurs in the serialized query string as
    often as the pair does in the list. *)
Lemma occurrences_toString name value p :
  occurrences name value (toString p) = count_pair name value p.
Proof.
  unfold occurrences, count_pair. rewrite components_toString.
  induction p as [|[k v] p IH]; [done|].
  cbn [List.map List.filter fst snd]. rewrite serialize_pair_eqb.
  destruct (String.eqb k name && String.eqb v value); cbn [List.length]; by rewrite IH.
Qed.

(** A parameter named [name] occurs in the serialized query string as
    often as a pair of that name does in the list. *)
Lemma occurrences_of_name_toString name p :
  occurrences_of_name name (toString p) = count_name name p.
Proof.
  unfold occurrences_of_name, count_name. rewrite components_toString.
  induction p as [|[k v] p IH]; [done|].
  cbn [List.map List.filter fst snd]. rewrite serialize_pair_named.
  destruct (String.eqb k name); cbn [List.length]; by rewrite IH.
Qed.

End SearchParams.

(* ===================================================================== *)
(** ** The URL builder: one instance, many calls *)
(* ===================================================================== *)

Section Builder.
Context `{RulerDeps}.
Import URLSearchParams.

Implicit Types (b : Ruler.RulerUrlBuilder) (p : URLSearchParams.t).

Lemma namespace_url ns b :
  Ruler.namespace ns b
  = (Ruler.basePath b +:+ "/" +:+ encodeURIComponent ns)
      +:+ "?" +:+ toString (Ruler.rulerSearchParams b).
Proof. unfold Ruler.namespace. by rewrite !app_assoc_s. Qed.

Lemma namespaceGroup_url ns group b :
  Ruler.namespaceGroup ns group b
  = (Ruler.basePath b +:+ "/" +:+ encodeURIComponent ns
       +:+ "/" +:+ encodeURIComponent group)
      +:+ "?" +:+ toString (Ruler.rulerSearchParams b).
Proof. unfold Ruler.namespaceGroup. by rewrite !app_assoc_s. Qed.

(** What a call returns is made from the parameters the instance holds
    once the call is over; the base path never changes. *)
Lemma call_output c b :
  Ruler.basePath (snd (Ruler.call c b)) = Ruler.basePath b
  /\ Ruler.rulerSearchParams (snd (Ruler.call c b))
     = call_params c (Ruler.rulerSearchParams b)
  /\ output_from (Ruler.basePath b) (call_params c (Ruler.rulerSearchParams b))
       (fst (Ruler.call c b)).
Proof.
  destruct c as [filter | ns | ns group]; simpl; repeat split.
  - by left.
  - right. eexists. by rewrite namespace_url.
  - right. eexists. by rewrite namespaceGroup_url.
Qed.

(** A property of the parameters that none of the calls breaks holds of
    the parameters behind every output of the series of calls. *)
Lemma run_invariant_on (P : URLSearchParams.t -> Prop) calls b :
  Forall (fun c => forall p, P p -> P (call_params c p)) calls ->
  P (Ruler.rulerSearchParams b) ->
  Forall (fun o => exists p, P p /\ output_from (Ruler.basePath b) p o)
    (fst (Ruler.run calls b)).
Proof.
  revert b. induction calls as [|c calls IH]; intros b Hstep Hb; simpl.
  - constructor.
  - apply Forall_cons in Hstep as [Hc Hstep].
    destruct (call_output c b) as (Hbase & Hparams & Hout).
    destruct (Ruler.call c b) as [o b'] eqn:Hcall. simpl in *.
    specialize (IH b'). rewrite Hbase in IH.
    destruct (Ruler.run calls b') as [os b''] eqn:Hrun. simpl in *.
    constructor.
    + exists (call_params c (Ruler.rulerSearchParams b)). split; [by apply Hc | done].
    + apply IH; [done|]. rewrite Hparams. by apply Hc.
Qed.

Lemma run_invariant (P : URLSearchParams.t -> Prop) calls b :
  (forall c p, P p -> P (call_params c p)) ->
  P (Ruler.rulerSearchParams b) ->
  Forall (fun o => exists p, P p /\ output_from (Ruler.basePath b) p o)
    (fst (Ruler.run calls b)).
Proof.
  intros Hstep. apply run_invariant_on. apply Forall_forall. intros c _. apply Hstep.
Qed.

(** Counting a parameter in an output is counting it in the list the
    output was made from, when the list names it at most once. *)
Lemma output_counts base p o name value :
  output_from base p o ->
  count_name name p <= 1 ->
  output_param_count name value o = count_pair name value p
  /\ output_name_count name o = count_name name p.
Proof.
  intros [-> | [path ->]] Hle.
  - by apply fromEntries_counts.
  - unfold output_param_count, output_name_count.
    rewrite query_of_app by apply toString_no_question_mark.
    by rewrite occurrences_toString, occurrences_of_name_toString.
Qed.

(** [rules] only ever assigns [dashboard_uid] and [panel_id]. *)
Lemma rules_params_other filter p name :
  name <> "dashboard_uid" -> name <> "panel_id" ->
  count_name name (Ruler.rules_params filter p) = count_name name p
  /\ forall value,
      count_pair name value (Ruler.rules_params filter p) = count_pair name value p.
Proof.
  intros Hd Hp. unfold Ruler.rules_params.
  destruct filter as [f|]; [|done].
  destruct (truthy (JStr (dashboardUID f))); [|done].
  destruct (panelId f) as [n|]; [destruct (truthy (JNum n))|].
  - split; [|intros value].
    + by rewrite !count_name_set_other.
    + by rewrite !count_pair_set_other.
  - split; [|intros value].
    + by rewrite !count_name_set_other.
    + by rewrite !count_pair_set_other.
  - split; [|intros value].
    + by rewrite !count_name_set_other.
    + by rewrite !count_pair_set_other.
Qed.

Lemma call_params_other c p name :
  name <> "dashboard_uid" -> name <> "panel_id" ->
  count_name name (call_params c p) = count_name name p
  /\ forall value, count_pair name value (call_params c p) = count_pair name value p.
Proof.
  intros Hd Hp. destruct c; simpl; try done. by apply rules_params_other.
Qed.

(** The parameters of a new instance. *)
Lemma rulerUrlBuilder_params rulerConfig :
  let p := Ruler.rulerSearchParams (Ruler.rulerUrlBuilder rulerConfig) in
  let source := if customRulerEnabled rulerConfig then 1 else 0 in
  let noProxy := if Ruler.apiVersion_is rulerConfig "legacy" then 1 else 0 in
  count_name "source" p = source /\ count_pair "source" "ruler" p = source
  /\ count_name "noProxy" p = noProxy /\ count_pair "noProxy" "true" p = noProxy
  /\ count_name "dashboard_uid" p = 0 /\ count_name "panel_id" p = 0.
Proof.
  unfold Ruler.rulerUrlBuilder. simpl.
  by destruct (customRulerEnabled rulerConfig), (Ruler.apiVersion_is rulerConfig "legacy").
Qed.

Lemma apiVersion_is_spec rulerConfig v :
  Ruler.apiVersion_is rulerConfig v = true <-> apiVersion rulerConfig = Some v.
Proof.
  unfold Ruler.apiVersion_is. destruct (apiVersion rulerConfig) as [a|]; [|done].
  rewrite String.eqb_eq. split; [by intros -> | by intros [= ->]].
Qed.

(** C7. On an instance made with [customRulerEnabled], everything any
    series of calls returns (the params map of [rules], the query string
    of a [namespace] or [namespaceGroup] URL) holds the parameter
    [source=ruler] exactly once and no other parameter named [source];
    and it holds [noProxy=true] exactly once if and only if [apiVersion]
    is ['legacy']. *)
Theorem source_param_exactly_once
    (rulerConfig : RulerDataSourceConfig) (calls : list Ruler.BuilderCall) :
  customRulerEnabled rulerConfig = true ->
  Forall (fun o =>
            output_param_count "source" "ruler" o = 1
            /\ output_name_count "source" o = 1
            /\ (output_param_count "noProxy" "true" o = 1
                <-> apiVersion rulerConfig = Some "legacy"))
    (fst (Ruler.run calls (Ruler.rulerUrlBuilder rulerConfig))).
Proof.
  intros Hsource.
  set (noProxy := if Ruler.apiVersion_is rulerConfig "legacy" then 1 else 0).
  set (P := fun p => count_name "source" p = 1 /\ count_pair "source" "ruler" p = 1
                     /\ count_name "noProxy" p = noProxy
                     /\ count_pair "noProxy" "true" p = noProxy).
  assert (P (Ruler.rulerSearchParams (Ruler.rulerUrlBuilder rulerConfig))) as Hinit.
  { pose proof (rulerUrlBuilder_params rulerConfig) as Hp. cbv zeta in Hp.
    rewrite Hsource in Hp. by destruct Hp as (? & ? & ? & ? & _). }
  assert (forall c p, P p -> P (call_params c p)) as Hstep.
  { intros c p (H1 & H2 & H3 & H4). unfold P.
    destruct (call_params_other c p "source") as [-> ->]; [done..|].
    destruct (call_params_other c p "noProxy") as [-> ->]; [done..|].
    done. }
  eapply Forall_impl; [exact (run_invariant P calls _ Hstep Hinit)|].
  intros o (p & (H1 & H2 & H3 & H4) & Hfrom). simpl.
  destruct (output_counts _ _ _ "source" "ruler" Hfrom) as [-> ->]; [lia|].
  destruct (output_counts _ _ _ "noProxy" "true" Hfrom) as [-> _].
  { rewrite H3. unfold noProxy. destruct (Ruler.apiVersion_is _ _); lia. }
  repeat split; try done.
  - rewrite H4. unfold noProxy. intros Hc. apply apiVersion_is_spec.
    by destruct (Ruler.apiVersion_is _ _).
  - intros Hv%apiVersion_is_spec. rewrite H4. unfold noProxy. by rewrite Hv.
Qed.

(** C8. [namespace] and [namespaceGroup] put after the base path the
    segments [encodeURIComponent] makes of the namespace and of the group,
    each on its own: decoding a segment once gives the name back, a
    segment has no [/] and no space, so the two segments are what lies
    between the [/] of the path. The serialized parameters follow the [?]
    as they are, and with no parameters the URL ends in [?]. *)
Theorem path_segments_encoded_once
    (b : Ruler.RulerUrlBuilder) (ns group : string) :
  let query := toString (Ruler.rulerSearchParams b) in
  Ruler.namespace ns b
    = Ruler.basePath b +:+ "/" +:+ encodeURIComponent ns +:+ "?" +:+ query
  /\ Ruler.namespaceGroup ns group b
    = Ruler.basePath b +:+ "/" +:+ encodeURIComponent ns
        +:+ "/" +:+ encodeURIComponent group +:+ "?" +:+ query
  /\ percent_decode (encodeURIComponent ns) = Some ns
  /\ percent_decode (encodeURIComponent group) = Some group
  /\ split_on "/" (encodeURIComponent ns +:+ "/" +:+ encodeURIComponent group)
    = [encodeURIComponent ns; encodeURIComponent group]
  /\ mem_ascii " " (encodeURIComponent ns) = false
  /\ mem_ascii " " (encodeURIComponent group) = false
  /\ query_of (Ruler.namespace ns b) = Some query
  /\ query_of (Ruler.namespaceGroup ns group b) = Some query
  /\ (Ruler.rulerSearchParams b = [] ->
      Ruler.namespace ns b = Ruler.basePath b +:+ "/" +:+ encodeURIComponent ns +:+ "?"
      /\ Ruler.namespaceGroup ns group b
        = Ruler.basePath b +:+ "/" +:+ encodeURIComponent ns
            +:+ "/" +:+ encodeURIComponent group +:+ "?").
Proof.
  intros query.
  assert (forall c s, segment_char c = false ->
                      mem_ascii c (encodeURIComponent s) = false) as Hfree.
  { intros c s Hc.
    apply (not_in_alphabet segment_char); [done | apply encodeURIComponent_alphabet]. }
  split; [done|]. split; [done|]. repeat apply conj.
  - apply percent_decode_encodeURIComponent.
  - apply percent_decode_encodeURIComponent.
  - change (encodeURIComponent ns +:+ "/" +:+ encodeURIComponent group)
      with (encodeURIComponent ns +:+ String "/" (encodeURIComponent group)).
    rewrite split_on_app by by apply Hfree. by rewrite split_on_free by by apply Hfree.
  - by apply Hfree.
  - by apply Hfree.
  - rewrite namespace_url. apply query_of_app, toString_no_question_mark.
  - rewrite namespaceGroup_url. apply query_of_app, toString_no_question_mark.
  - intros Hempty. unfold Ruler.namespace, Ruler.namespaceGroup. by rewrite Hempty.
Qed.

(** *** What [rules] leaves in the shared parameters *)







End Builder.

(* ===================================================================== *)
(** ** Examples *)
(* ===================================================================== *)

Section RunningExamples.
Import Examples.
#[local] Existing Instance deps.

Example namespace_url_cortex :
  Ruler.namespace "team a/b" (Ruler.rulerUrlBuilder cortex)
  = "/api/ruler/cortex/api/v1/rules/team%20a%2Fb?source=ruler&noProxy=true".
Proof. reflexivity. Qed.

Example namespaceGroup_url_mimir :
  Ruler.namespaceGroup "a%2Fb" "g 1" (Ruler.rulerUrlBuilder mimir)
  = "/api/ruler/mimir/config/v1/rules/a%252Fb/g%201?".
Proof. reflexivity. Qed.

Example namespace_url_after_rules :
  Ruler.namespace "ns" (snd (Ruler.rules (Some panel7) (Ruler.rulerUrlBuilder grafana)))
  = "/api/ruler/grafana/api/v1/rules/ns?dashboard_uid=d1+x&panel_id=7".
Proof. reflexivity. Qed.

Example rules_params_panel_zero :
  Ruler.rules_params (Some {| dashboardUID := "d1"; panelId := Some (NumInt 0) |}) []
  = [("dashboard_uid", "d1")].
Proof. reflexivity. Qed.

Example group_not_found_is_null :
  fst (Ruler.fetchRulerRulesGroupV2 cortex "ns" "g"
         (rejecting (JObj (error_fields 404 "rpc error: group does not exist"))) [])
  = Normal JNull.
Proof. reflexivity. Qed.

Example server_error_rethrown :
  fst (Ruler.fetchRulerRules cortex None
         (rejecting (JObj (error_fields 500 "boom"))) [])
  = Abrupt (ThrownValue (JObj (error_fields 500 "boom"))).
Proof. reflexivity. Qed.

Example thrown_string_rethrown :
  fst (Ruler.fetchRulerRules cortex None (rejecting (JStr "offline")) [])
  = Abrupt (ThrownValue (JStr "offline")).
Proof. reflexivity. Qed.

Lemma absent_resource_returns_empty_witness :
  transport_error (error_fields 404 "no rule groups found") 404
    (error_data "no rule groups found")
  /\ absent_phrases (error_data "no rule groups found") = true
  /\ Ruler.rulerGetRequest "/api/ruler/cortex/api/v1/rules" (JObj ∅) None
       (rejecting (JObj (error_fields 404 "no rule groups found"))) []
     = (Normal (JObj ∅), [get_request "/api/ruler/cortex/api/v1/rules" None]).
Proof.
  assert (transport_error (error_fields 404 "no rule groups found") 404
            (error_data "no rule groups found")) as Ht.
  { repeat split. }
  assert (absent_phrases (error_data "no rule groups found") = true) as Hp.
  { reflexivity. }
  split; [exact Ht|]. split; [exact Hp|].
  exact (proj1 (absent_resource_returns_empty
                  "/api/ruler/cortex/api/v1/rules" (JObj ∅) None
                  (rejecting (JObj (error_fields 404 "no rule groups found"))) []
                  _ _ eq_refl Ht Hp)).
Defined.

Lemma unsupported_backend_rethrown_with_sentinel_witness :
  transport_error (error_fields 404 "unrelated issue") 404 (error_data "unrelated issue")
  /\ absent_phrases (error_data "unrelated issue") = false
  /\ exists fields' data',
      Ruler.rulerGetRequest "/api/ruler/cortex/api/v1/rules" (JObj ∅) None
        (rejecting (JObj (error_fields 404 "unrelated issue"))) []
        = (Abrupt (ThrownValue (JObj fields')),
           [get_request "/api/ruler/cortex/api/v1/rules" None])
      /\ fields' !! "data" = Some (JObj data')
      /\ data' !! "message" = Some (JStr "ruler not supported")
      /\ (forall k, k <> "message" -> data' !! k = error_data "unrelated issue" !! k)
      /\ (forall k, k <> "data" ->
                    fields' !! k = error_fields 404 "unrelated issue" !! k)
      /\ fields' !! "status" = Some (JNum (NumInt 404)).
Proof.
  assert (transport_error (error_fields 404 "unrelated issue") 404
            (error_data "unrelated issue")) as Ht.
  { repeat split. }
  assert (absent_phrases (error_data "unrelated issue") = false) as Hp.
  { reflexivity. }
  split; [exact Ht|]. split; [exact Hp|].
  exact (unsupported_backend_rethrown_with_sentinel
           "/api/ruler/cortex/api/v1/rules" (JObj ∅) None
           (rejecting (JObj (error_fields 404 "unrelated issue"))) []
           _ _ 404%Z eq_refl Ht (or_introl (conj eq_refl Hp))).
Defined.

Lemma writes_and_deletes_surface_errors_witness :
  let error := JObj (error_fields 404 "group does not exist") in
  Ruler.setRulerRuleGroup cortex "ns" (JObj ∅) (rejecting error) []
    = (Abrupt (ThrownValue error),
       [write_request (Ruler.namespace "ns" (Ruler.rulerUrlBuilder cortex)) (JObj ∅)])
  /\ Ruler.deleteRulerRulesGroup cortex "ns" "g" (rejecting error) []
    = (Abrupt (ThrownValue error),
       [delete_request (Ruler.namespaceGroup "ns" "g" (Ruler.rulerUrlBuilder cortex))])
  /\ Ruler.deleteNamespace cortex "ns" (rejecting error) []
    = (Abrupt (ThrownValue error),
       [delete_request (Ruler.namespace "ns" (Ruler.rulerUrlBuilder cortex))]).
Proof.
  intros error.
  destruct (writes_and_deletes_surface_errors cortex "ns" "g" (JObj ∅)
              (rejecting error) [] error) as (Hset & Hgroup & Hns).
  split; [exact (Hset eq_refl)|]. split; [exact (Hgroup eq_refl) | exact (Hns eq_refl)].
Defined.


Lemma dashboard_filter_needs_builtin_source_witness :
  dashboardUID panel7 <> ""
  /\ dataSourceName cortex <> GRAFANA_RULES_SOURCE_NAME
  /\ Ruler.fetchRulerRules cortex (Some panel7) (answering (JObj ∅)) []
    = (Abrupt dashboard_filter_error, []).
Proof.
  assert (dashboardUID panel7 <> "") as Huid by discriminate.
  assert (dataSourceName cortex <> GRAFANA_RULES_SOURCE_NAME) as Hsrc by discriminate.
  split; [exact Huid|]. split; [exact Hsrc|].
  exact (proj1 (dashboard_filter_needs_builtin_source cortex (Some panel7)
                  (answering (JObj ∅)) []) panel7 eq_refl Huid Hsrc).
Defined.

Lemma base_path_follows_dialect_witness :
  apiVersion mimir = Some "config"
  /\ ends_with (Ruler.basePath (Ruler.rulerUrlBuilder mimir)) "/config/v1/rules"
  /\ apiVersion cortex <> Some "config"
  /\ ends_with (Ruler.basePath (Ruler.rulerUrlBuilder cortex)) "/api/v1/rules".
Proof.
  assert (apiVersion cortex <> Some "config") as Hne by discriminate.
  split; [reflexivity|].
  split; [exact (proj2 (proj1 (base_path_follows_dialect mimir)) eq_refl)|].
  split; [exact Hne|].
  exact (proj1 (proj2 (base_path_follows_dialect cortex)) Hne).
Defined.

Lemma source_param_exactly_once_witness :
  customRulerEnabled cortex = true
  /\ Forall (fun o =>
               output_param_count "source" "ruler" o = 1
               /\ output_name_count "source" o = 1
               /\ (output_param_count "noProxy" "true" o = 1
                   <-> apiVersion cortex = Some "legacy"))
       (fst (Ruler.run [Ruler.CallNamespace "a/b"; Ruler.CallRules None;
                        Ruler.CallNamespaceGroup "a b" "g"; Ruler.CallNamespace "a/b"]
               (Ruler.rulerUrlBuilder cortex))).
Proof.
  split; [reflexivity|].
  exact (source_param_exactly_once cortex
           [Ruler.CallNamespace "a/b"; Ruler.CallRules None;
            Ruler.CallNamespaceGroup "a b" "g"; Ruler.CallNamespace "a/b"] eq_refl).
Defined.

Lemma path_segments_encoded_once_witness :
  Ruler.rulerSearchParams (Ruler.rulerUrlBuilder mimir) = []
  /\ Ruler.namespace "a/b c" (Ruler.rulerUrlBuilder mimir)
    = Ruler.basePath (Ruler.rulerUrlBuilder mimir) +:+ "/"
        +:+ encodeURIComponent "a/b c" +:+ "?"
  /\ percent_decode (encodeURIComponent "a/b c") = Some "a/b c".
Proof.
  destruct (path_segments_encoded_once (Ruler.rulerUrlBuilder mimir) "a/b c" "g")
    as (_ & _ & Hdecode & _ & _ & _ & _ & _ & _ & Hempty).
  split; [reflexivity|]. split; [exact (proj1 (Hempty eq_refl)) | exact Hdecode].
Defined.


End RunningExamples.


(* ===================================================================== *)
(** ** Error classification: what an outcome tells about the error *)
(* ===================================================================== *)

Section ClassificationOutcomes.
Context `{RulerDeps}.

(** The [catch] clause, branch by branch. *)
Lemma rulerGetRequest_catch_cases empty error srv log :
  Ruler.rulerGetRequest_catch empty error srv log =
    (match Ruler.isResponseError error with
     | Abrupt t => Abrupt t
     | Normal false => Abrupt (ThrownValue error)
     | Normal true =>
         match Ruler.isCortexErrorResponse error with
         | Abrupt t => Abrupt t
         | Normal c =>
             if truthy c then Normal empty
             else match Ruler.isRulerNotSupported error with
                  | Abrupt t => Abrupt t
                  | Normal n =>
                      if truthy n then
                        match Ruler.not_supported_error error with
                        | Normal e => Abrupt (ThrownValue e)
                        | Abrupt t => Abrupt t
                        end
                      else Abrupt (ThrownValue error)
                  end
         end
     end, log).
Proof.
  unfold Ruler.rulerGetRequest_catch, lift, throw, mbind, Async_bind, mret, Async_ret.
  destruct (Ruler.isResponseError error) as [[]|]; simpl; try done.
  destruct (Ruler.isCortexErrorResponse error) as [c|]; simpl; try done.
  destruct (truthy c); try done.
  destruct (Ruler.isRulerNotSupported error) as [n|]; simpl; try done.
  destruct (truthy n); try done.
  by destruct (Ruler.not_supported_error error).
Qed.

Lemma isCortexErrorResponse_truthy error c :
  Ruler.isCortexErrorResponse error = Normal c -> truthy c = true ->
  exists s m,
    Get error "status" = Normal s /\ strict_eq_int s 404 = true
    /\ Ruler.data_message error = Normal m
    /\ (includes_phrase m "group does not exist"
        \/ includes_phrase m "no rule groups found").
Proof.
  unfold Ruler.isCortexErrorResponse, js_and, js_or, includes_phrase.
  destruct (Get error "status") as [s|]; simpl; [|done].
  destruct (strict_eq_int s 404) eqn:Hs; simpl; [|by intros [= <-]].
  destruct (Ruler.data_message error) as [m|]; simpl; [|intros [=]].
  destruct (optional_includes m "group does not exist") as [a|] eqn:Ho; simpl;
    [|intros [=]].
  destruct (truthy a) eqn:Ha.
  - intros _ _. exists s, m. repeat split; try done. left. rewrite Ho. cbn. by rewrite Ha.
  - destruct (optional_includes m "no rule groups found") as [a'|] eqn:Ho'; simpl;
      [|intros [=]].
    intros [= <-] Hc. exists s, m. repeat split; try done.
    right. rewrite Ho'. cbn. by rewrite Hc.
Qed.

Lemma isRulerNotSupported_truthy error n :
  Ruler.isRulerNotSupported error = Normal n -> truthy n = true ->
  exists s,
    Get error "status" = Normal s
    /\ (strict_eq_int s 404 = true \/ strict_eq_int s 500 = true).
Proof.
  unfold Ruler.isRulerNotSupported, js_and, js_or.
  destruct (Get error "status") as [s|]; simpl; [|done].
  destruct (strict_eq_int s 404) eqn:Hs; simpl.
  - intros _ _. exists s. split; [done | by left].
  - destruct (strict_eq_int s 500) eqn:Hs'; simpl.
    + intros _ _. exists s. split; [done | by right].
    + by intros [= <-].
Qed.

(** X1. [rulerGetRequest] turns a rejection into a returned value only for
    a 404 whose message includes one of the two absent-resource phrases, and
    the value is then the [empty] it was given: no error of another status
    and no 404 with another message is ever swallowed. *)
Theorem only_absent_404_is_swallowed
    (url : string) (empty : JsVal) (params : option (gmap string string))
    (srv : BackendSrv) (log : list BackendSrvRequest) (error v : JsVal) :
  srv (get_request url params) = Rejected error ->
  fst (Ruler.rulerGetRequest url empty params srv log) = Normal v ->
  v = empty
  /\ exists s m,
      Get error "status" = Normal s /\ strict_eq_int s 404 = true
      /\ Ruler.data_message error = Normal m
      /\ (includes_phrase m "group does not exist"
          \/ includes_phrase m "no rule groups found").
Proof.
  intros Hsrv. rewrite (rulerGetRequest_rejected _ _ _ _ _ _ Hsrv).
  rewrite rulerGetRequest_catch_cases. cbn [fst].
  destruct (Ruler.isResponseError error) as [[]|]; try done.
  destruct (Ruler.isCortexErrorResponse error) as [c|] eqn:Hc; try done.
  destruct (truthy c) eqn:Ht.
  - intros [= <-]. split; [done|]. by apply (isCortexErrorResponse_truthy error c).
  - destruct (Ruler.isRulerNotSupported error) as [n|]; try done.
    destruct (truthy n); try done.
    by destruct (Ruler.not_supported_error error).
Qed.

(** X2. When [rulerGetRequest] throws a value after a rejection, the value
    is the very value the transport rejected with, or it is the error of a
    404 or a 500 rebuilt with [RULER_NOT_SUPPORTED_MSG] as its
    [data.message]: no other status is ever reported as an unsupported
    ruler. *)
Theorem thrown_value_is_original_or_sentinel
    (url : string) (empty : JsVal) (params : option (gmap string string))
    (srv : BackendSrv) (log : list BackendSrvRequest) (error thrown : JsVal) :
  srv (get_request url params) = Rejected error ->
  fst (Ruler.rulerGetRequest url empty params srv log) = Abrupt (ThrownValue thrown) ->
  thrown = error
  \/ exists s fields data,
      Get error "status" = Normal s
      /\ (strict_eq_int s 404 = true \/ strict_eq_int s 500 = true)
      /\ thrown = JObj fields
      /\ fields !! "data" = Some (JObj data)
      /\ data !! "message" = Some (JStr RULER_NOT_SUPPORTED_MSG).
Proof.
  intros Hsrv. rewrite (rulerGetRequest_rejected _ _ _ _ _ _ Hsrv).
  rewrite rulerGetRequest_catch_cases. cbn [fst].
  pose proof (raises_isResponseError error) as Hr.
  pose proof (raises_isCortexErrorResponse error) as Hc.
  pose proof (raises_isRulerNotSupported error) as Hns.
  pose proof (raises_Get error "data") as Hg.
  destruct (Ruler.isResponseError error) as [[]|[]]; simpl in Hr; try done;
    [|intros [= <-]; by left].
  destruct (Ruler.isCortexErrorResponse error) as [c|[]]; simpl in Hc; try done.
  destruct (truthy c); try done.
  destruct (Ruler.isRulerNotSupported error) as [n|[]] eqn:Hn; simpl in Hns; try done.
  destruct (truthy n) eqn:Ht; [|intros [= <-]; by left].
  destruct (isRulerNotSupported_truthy error n Hn Ht) as (s & Hs & Hcode).
  unfold Ruler.not_supported_error.
  destruct (Get error "data") as [d|[]]; simpl in *; try done.
  intros [= <-]. right. eexists s, _, _. repeat split; try done.
  - apply lookup_insert_eq.
  - apply lookup_insert_eq.
Qed.

(** X3. The message of an error is read only when its status is 404 or
    500: an error with any other finite status and any non-nullish [data]
    (an object, a string, a message of any type) is thrown again as it is. *)
Theorem other_statuses_rethrown_unread
    (url : string) (empty : JsVal) (params : option (gmap string string))
    (srv : BackendSrv) (log : list BackendSrvRequest)
    (error data : JsVal) (status : Z) :
  srv (get_request url params) = Rejected error ->
  Get error "status" = Normal (JNum (NumInt status)) ->
  Get error "data" = Normal data ->
  not_nullish data = true ->
  status <> 404%Z -> status <> 500%Z ->
  Ruler.rulerGetRequest url empty params srv log
    = (Abrupt (ThrownValue error), (log ++ [get_request url params])%list).
Proof.
  intros Hsrv Hs Hd Hn H404 H500.
  rewrite (rulerGetRequest_rejected _ _ _ _ _ _ Hsrv).
  rewrite rulerGetRequest_catch_cases.
  apply Z.eqb_neq in H404, H500.
  unfold Ruler.isResponseError, Ruler.isCortexErrorResponse, Ruler.isRulerNotSupported,
    js_and, js_or.
  rewrite Hd, Hs. simpl. rewrite Hn, H404. simpl. by rewrite H500.
Qed.

(** X4. A 404 or a 500 whose [data.message] is a number, a boolean or an
    object is not classified: [message?.includes] finds no function to
    call, and [rulerGetRequest] throws the [TypeError] instead of the
    error. *)
Theorem message_without_includes_raises
    (url : string) (empty : JsVal) (params : option (gmap string string))
    (srv : BackendSrv) (log : list BackendSrvRequest)
    (fields data : gmap string JsVal) (status : Z) (message : JsVal) :
  srv (get_request url params) = Rejected (JObj fields) ->
  fields !! "status" = Some (JNum (NumInt status)) ->
  fields !! "data" = Some (JObj data) ->
  data !! "message" = Some message ->
  message_without_includes message = true ->
  status = 404%Z \/ status = 500%Z ->
  Ruler.rulerGetRequest url empty params srv log
    = (Abrupt ThrownTypeError, (log ++ [get_request url params])%list).
Proof.
  intros Hsrv Hs Hd Hm Hkind Hstatus.
  rewrite (rulerGetRequest_rejected _ _ _ _ _ _ Hsrv).
  rewrite rulerGetRequest_catch_cases.
  unfold Ruler.isResponseError, Ruler.isCortexErrorResponse, Ruler.isRulerNotSupported,
    Ruler.data_message, js_and, js_or.
  simpl. rewrite Hd, Hs. simpl. rewrite ?Hd. simpl. rewrite ?Hm. simpl.
  destruct Hstatus as [-> | ->]; by destruct message.
Qed.

End ClassificationOutcomes.


(* ===================================================================== *)
(** ** The operations: what they send and what they give back *)
(* ===================================================================== *)

Section OperationOutcomes.
Context `{RulerDeps}.






(** X7. [fetchRulerRulesGroup] and [fetchRulerRulesGroupV2] give [null]
    when the backend answers with an absent-resource 404, and the body of
    the response when it succeeds. *)
Theorem group_fetchers_result
    (rulerConfig : RulerDataSourceConfig) (name ns group : string)
    (srv : BackendSrv) (log : list BackendSrvRequest) :
  let legacy := get_request (legacy_group_url name ns group) None in
  let v2 :=
    get_request (Ruler.namespaceGroup ns group (Ruler.rulerUrlBuilder rulerConfig)) None in
  (forall fields data,
      srv legacy = Rejected (JObj fields) ->
      transport_error fields 404 data -> absent_phrases data = true ->
      Ruler.fetchRulerRulesGroup name ns group srv log
        = (Normal JNull, (log ++ [legacy])%list))
  /\ (forall fields data,
        srv v2 = Rejected (JObj fields) ->
        transport_error fields 404 data -> absent_phrases data = true ->
        Ruler.fetchRulerRulesGroupV2 rulerConfig ns group srv log
          = (Normal JNull, (log ++ [v2])%list))
  /\ (forall response, srv legacy = Fulfilled response ->
        Ruler.fetchRulerRulesGroup name ns group srv log
          = (Normal (response_data response), (log ++ [legacy])%list))
  /\ (forall response, srv v2 = Fulfilled response ->
        Ruler.fetchRulerRulesGroupV2 rulerConfig ns group srv log
          = (Normal (response_data response), (log ++ [v2])%list)).
Proof.
  intros legacy v2.
  assert (forall url fields data,
            srv (get_request url None) = Rejected (JObj fields) ->
            transport_error fields 404 data -> absent_phrases data = true ->
            Ruler.rulerGetRequest url JNull None srv log
              = (Normal JNull, (log ++ [get_request url None])%list)) as Habsent.
  { intros url fields data Hsrv Ht Hp.
    rewrite (rulerGetRequest_rejected _ _ _ _ _ _ Hsrv).
    rewrite (rulerGetRequest_catch_typed _ _ _ _ _ _ Ht). by rewrite Hp. }
  repeat split.
  - intros fields data. apply Habsent.
  - intros fields data. apply Habsent.
  - intros response. apply rulerGetRequest_fulfilled.
  - intros response. apply rulerGetRequest_fulfilled.
Qed.

(** X8. On a successful response whose body is an object,
    [fetchRulerRulesNamespace] gives what is stored under the namespace
    when that is truthy, and the empty array when it is falsy ([null], [0],
    the empty string, [false]): an empty array stored under the namespace
    is truthy and is given back as it is. *)
Theorem fetchRulerRulesNamespace_stored_value
    (rulerConfig : RulerDataSourceConfig) (ns : string)
    (srv : BackendSrv) (log : list BackendSrvRequest)
    (status : Z) (body : gmap string JsVal) (stored : JsVal) :
  let request :=
    get_request (Ruler.namespace ns (Ruler.rulerUrlBuilder rulerConfig)) None in
  srv request = Fulfilled {| response_status := status; response_data := JObj body |} ->
  body !! ns = Some stored ->
  Ruler.fetchRulerRulesNamespace rulerConfig ns srv log
    = (Normal (if truthy stored then stored else JArr []), (log ++ [request])%list).
Proof.
  intros request Hsrv Hns.
  unfold Ruler.fetchRulerRulesNamespace, mbind, Async_bind.
  rewrite (rulerGetRequest_fulfilled _ _ _ _ _ _ Hsrv).
  unfold lift, js_or. simpl. rewrite Hns. simpl. by destruct (truthy stored).
Qed.

(** X9. On a successful response whose body is [null] or [undefined],
    [fetchRulerRulesNamespace] throws a [TypeError]: the body is indexed by
    the namespace outside of any [try]. *)
Theorem fetchRulerRulesNamespace_nullish_body
    (rulerConfig : RulerDataSourceConfig) (ns : string)
    (srv : BackendSrv) (log : list BackendSrvRequest)
    (status : Z) (body : JsVal) :
  let request :=
    get_request (Ruler.namespace ns (Ruler.rulerUrlBuilder rulerConfig)) None in
  srv request = Fulfilled {| response_status := status; response_data := body |} ->
  not_nullish body = false ->
  Ruler.fetchRulerRulesNamespace rulerConfig ns srv log
    = (Abrupt ThrownTypeError, (log ++ [request])%list).
Proof.
  intros request Hsrv Hbody.
  unfold Ruler.fetchRulerRulesNamespace, mbind, Async_bind.
  rewrite (rulerGetRequest_fulfilled _ _ _ _ _ _ Hsrv).
  by destruct body.
Qed.

(** X10. [fetchRulerRulesGroup] asks for
    [/api/ruler/<id>/api/v1/rules/<namespace>/<group>] with no query string.
    [fetchRulerRulesGroupV2] on a source with neither the custom ruler nor
    the ['config'] or ['legacy'] dialect asks for the same URL followed by a
    bare [?]. *)
Theorem legacy_group_url_is_v2_without_query
    (rulerConfig : RulerDataSourceConfig) (ns group : string)
    (srv : BackendSrv) (log : list BackendSrvRequest) :
  customRulerEnabled rulerConfig = false ->
  apiVersion rulerConfig <> Some "config" ->
  apiVersion rulerConfig <> Some "legacy" ->
  let legacy := legacy_group_url (dataSourceName rulerConfig) ns group in
  snd (Ruler.fetchRulerRulesGroup (dataSourceName rulerConfig) ns group srv log)
    = (log ++ [get_request legacy None])%list
  /\ snd (Ruler.fetchRulerRulesGroupV2 rulerConfig ns group srv log)
     = (log ++ [get_request (legacy +:+ "?") None])%list.
Proof.
  intros Hcustom Hconfig Hlegacy legacy. split.
  - apply rulerGetRequest_outcome.
  - unfold Ruler.fetchRulerRulesGroupV2.
    destruct (rulerGetRequest_outcome
                (Ruler.namespaceGroup ns group (Ruler.rulerUrlBuilder rulerConfig))
                JNull None srv log) as [-> _].
    do 3 f_equal.
    unfold Ruler.namespaceGroup, Ruler.rulerUrlBuilder, legacy, legacy_group_url.
    cbn [Ruler.basePath Ruler.rulerSearchParams].
    assert (Ruler.apiVersion_is rulerConfig "config" = false) as ->.
    { apply not_true_is_false. by intros ?%apiVersion_is_spec. }
    assert (Ruler.apiVersion_is rulerConfig "legacy" = false) as ->.
    { apply not_true_is_false. by intros ?%apiVersion_is_spec. }
    rewrite Hcustom. cbn [URLSearchParams.toString].
    rewrite !app_assoc_s. done.
Qed.

End OperationOutcomes.


(* ===================================================================== *)
(** ** The operations: one request each *)
(* ===================================================================== *)

Section OneRequest.
Context `{RulerDeps}.

Lemma fetch_then_unit request srv log :
  (_ ← fetch request; mret tt) srv log
  = (match srv request with
     | Fulfilled _ => Normal tt
     | Rejected error => Abrupt (ThrownValue error)
     end, (log ++ [request])%list).
Proof. unfold fetch, mbind, Async_bind, mret, Async_ret. by destruct (srv request). Qed.

(** X11. Whatever the transport answers, every operation that reaches the
    transport sends exactly one request and never a second one: a [POST]
    with the group as body for [setRulerRuleGroup], a [DELETE] without body
    for the two deletions, a request without method, body and params for the
    reads of a namespace or a group. The write and the deletions return
    nothing, and they return exactly when the transport fulfils the
    request. *)
Theorem one_request_per_operation
    (rulerConfig : RulerDataSourceConfig) (name ns group : string) (body : JsVal)
    (srv : BackendSrv) (log : list BackendSrvRequest) :
  let b := Ruler.rulerUrlBuilder rulerConfig in
  snd (Ruler.setRulerRuleGroup rulerConfig ns body srv log)
    = (log ++ [write_request (Ruler.namespace ns b) body])%list
  /\ snd (Ruler.deleteRulerRulesGroup rulerConfig ns group srv log)
     = (log ++ [delete_request (Ruler.namespaceGroup ns group b)])%list
  /\ snd (Ruler.deleteNamespace rulerConfig ns srv log)
     = (log ++ [delete_request (Ruler.namespace ns b)])%list
  /\ snd (Ruler.fetchRulerRulesNamespace rulerConfig ns srv log)
     = (log ++ [get_request (Ruler.namespace ns b) None])%list
  /\ snd (Ruler.fetchRulerRulesGroupV2 rulerConfig ns group srv log)
     = (log ++ [get_request (Ruler.namespaceGroup ns group b) None])%list
  /\ snd (Ruler.fetchRulerRulesGroup name ns group srv log)
     = (log ++ [get_request (legacy_group_url name ns group) None])%list
  /\ (fst (Ruler.setRulerRuleGroup rulerConfig ns body srv log) = Normal tt
      <-> exists response,
          srv (write_request (Ruler.namespace ns b) body) = Fulfilled response)
  /\ (fst (Ruler.deleteRulerRulesGroup rulerConfig ns group srv log) = Normal tt
      <-> exists response,
          srv (delete_request (Ruler.namespaceGroup ns group b)) = Fulfilled response)
  /\ (fst (Ruler.deleteNamespace rulerConfig ns srv log) = Normal tt
      <-> exists response,
          srv (delete_request (Ruler.namespace ns b)) = Fulfilled response).
Proof.
  intros b.
  assert (forall request,
            fst ((_ ← fetch request; mret tt) srv log) = Normal tt
            <-> exists response, srv request = Fulfilled response) as Hunit.
  { intros request. rewrite fetch_then_unit. cbn [fst].
    destruct (srv request) as [response|error].
    - split; [by exists response | done].
    - split; [done | by intros [? ?]]. }
  split; [|split; [|split; [|split; [|split; [|split; [|split; [|split]]]]]]].
  - unfold Ruler.setRulerRuleGroup. by rewrite fetch_then_unit.
  - unfold Ruler.deleteRulerRulesGroup. by rewrite fetch_then_unit.
  - unfold Ruler.deleteNamespace. by rewrite fetch_then_unit.
  - unfold Ruler.fetchRulerRulesNamespace, mbind, Async_bind.
    destruct (rulerGetRequest_outcome (Ruler.namespace ns b) (JObj ∅) None srv log)
      as [Hlog _]. fold b.
    destruct (Ruler.rulerGetRequest (Ruler.namespace ns b) (JObj ∅) None srv log)
      as [[v|t] log']; by cbn [snd] in *.
  - apply rulerGetRequest_outcome.
  - apply rulerGetRequest_outcome.
  - apply Hunit.
  - apply Hunit.
  - apply Hunit.
Qed.

End OneRequest.

(* ===================================================================== *)
(** ** URLSearchParams: assigning twice, reading back *)
(* ===================================================================== *)

Section SearchParamsMore.
Import URLSearchParams.

Implicit Types (p : URLSearchParams.t) (name value : string).

Lemma remove_name_absent name p : count_name name p = 0 -> remove_name name p = p.
Proof.
  unfold count_name, remove_name. induction p as [|[k v] p IH]; simpl; [done|].
  destruct (String.eqb k name); simpl; [done|]. intros Hc. by rewrite IH.
Qed.

(** Assigning to a name the value its only pair already has changes
    nothing. *)
Lemma set_same name value p :
  count_name name p = 1 -> count_pair name value p = 1 -> set name value p = p.
Proof.
  unfold count_name, count_pair. induction p as [|[k v] p IH]; simpl; [done|].
  destruct (String.eqb k name) eqn:Hk; simpl.
  - intros [= Hn]. apply String.eqb_eq in Hk as ->.
    rewrite (remove_name_absent name p Hn).
    destruct (String.eqb v value) eqn:Hv; simpl.
    + apply String.eqb_eq in Hv as ->. done.
    + intros Hp. pose proof (count_pair_le_name name value p) as Hle.
      unfold count_pair, count_name in Hle. lia.
  - intros Hn Hp. by rewrite IH.
Qed.




Lemma cut_at_app (sep : ascii) (a b : string) :
  mem_ascii sep a = false -> cut_at sep (a +:+ String sep b) = Some (a, b).
Proof.
  induction a as [|x a IH]; simpl.
  - intros _. by rewrite Ascii.eqb_refl.
  - rewrite orb_false_iff. intros [Hx Ha]. rewrite Ascii.eqb_sym, Hx. by rewrite (IH Ha).
Qed.

Lemma read_pair_serialize_pair (q : string * string) :
  read_pair (serialize_pair q) = Some q.
Proof.
  destruct q as [k v]. unfold read_pair, serialize_pair. cbn [fst snd].
  change (form_encode k +:+ "=" +:+ form_encode v)
    with (form_encode k +:+ String "=" (form_encode v)).
  rewrite cut_at_app by by apply form_encode_free.
  by rewrite !form_decode_form_encode.
Qed.

(** Reading a serialized query string back gives the list of pairs it was
    made from. *)
Lemma read_query_toString p : read_query (toString p) = Some p.
Proof.
  unfold read_query. rewrite components_toString.
  induction p as [|q p IH]; [done|].
  cbn [List.map read_pairs]. by rewrite read_pair_serialize_pair, IH.
Qed.

End SearchParamsMore.


(* ===================================================================== *)
(** ** The URL builder: repeated calls, reading URLs back *)
(* ===================================================================== *)

Section BuilderMore.
Context `{RulerDeps}.
Import URLSearchParams.

Implicit Types (b : Ruler.RulerUrlBuilder) (p : URLSearchParams.t).

Lemma rules_params_twice filter p :
  Ruler.rules_params filter (Ruler.rules_params filter p) = Ruler.rules_params filter p.
Proof.
  unfold Ruler.rules_params. destruct filter as [f|]; [|done].
  destruct (truthy (JStr (dashboardUID f))); [|done].
  destruct (panelId f) as [n|]; [destruct (truthy (JNum n))|].
  - rewrite (set_same "dashboard_uid").
    + apply set_same; [apply count_name_set | apply count_pair_set].
    + rewrite count_name_set_other by done. apply count_name_set.
    + rewrite count_pair_set_other by done. apply count_pair_set.
  - apply set_same; [apply count_name_set | apply count_pair_set].
  - apply set_same; [apply count_name_set | apply count_pair_set].
Qed.

(** X12. Calling [rules] a second time with the same filter changes
    nothing: the instance holds the same parameters, in the same order, and
    the call returns the same target. Parameters never pile up. *)
Theorem rules_is_idempotent (filter : option FetchRulerRulesFilter) b :
  Ruler.rules filter (snd (Ruler.rules filter b)) = Ruler.rules filter b.
Proof.
  unfold Ruler.rules. cbn [snd Ruler.basePath Ruler.rulerSearchParams].
  by rewrite rules_params_twice.
Qed.


(** X15. The query string of a [namespace] or [namespaceGroup] URL, read
    back the way [URLSearchParams] parses one, is the list of parameters the
    instance holds: names and values with [&], [=], spaces or any other
    byte come back as they were. *)
Theorem url_query_reads_back b (ns group : string) :
  query_of (Ruler.namespace ns b) ≫= read_query = Some (Ruler.rulerSearchParams b)
  /\ query_of (Ruler.namespaceGroup ns group b) ≫= read_query
     = Some (Ruler.rulerSearchParams b).
Proof.
  rewrite namespace_url, namespaceGroup_url.
  rewrite !query_of_app by apply toString_no_question_mark.
  cbn [mbind option_bind]. by rewrite read_query_toString.
Qed.

Lemma segment_free (c : ascii) (s : string) :
  segment_char c = false -> mem_ascii c (encodeURIComponent s) = false.
Proof.
  intros Hc. apply (not_in_alphabet segment_char); [done | apply encodeURIComponent_alphabet].
Qed.

Lemma encodeURIComponent_inj (s s' : string) :
  encodeURIComponent s = encodeURIComponent s' -> s = s'.
Proof.
  intros Heq. apply (f_equal percent_decode) in Heq.
  rewrite !percent_decode_encodeURIComponent in Heq. by injection Heq.
Qed.

(** X16. The URLs of one instance determine the names they were made
    from: two namespaces with the same [namespace] URL are the same, two
    namespace-group pairs with the same [namespaceGroup] URL are the same
    (a [/] inside a name is never taken for the separator), and a
    [namespace] URL is never a [namespaceGroup] URL. *)
Theorem urls_determine_names b (ns ns' group group' : string) :
  (Ruler.namespace ns b = Ruler.namespace ns' b -> ns = ns')
  /\ (Ruler.namespaceGroup ns group b = Ruler.namespaceGroup ns' group' b ->
      ns = ns' /\ group = group')
  /\ Ruler.namespace ns b <> Ruler.namespaceGroup ns' group' b.
Proof.
  set (q := toString (Ruler.rulerSearchParams b)).
  assert (forall x y, Ruler.basePath b +:+ "/" +:+ x = Ruler.basePath b +:+ "/" +:+ y ->
                      x = y) as Hbase.
  { intros x y Heq. apply (inj (String.append _)) in Heq. by injection Heq. }
  split; [|split].
  - unfold Ruler.namespace. fold q. intros Heq%Hbase.
    apply cut_at_first_unique in Heq as [Heq _]; try by apply segment_free.
    by apply encodeURIComponent_inj.
  - unfold Ruler.namespaceGroup. fold q. intros Heq%Hbase.
    apply cut_at_first_unique in Heq as [Hns Heq]; try by apply segment_free.
    apply cut_at_first_unique in Heq as [Hgroup _]; try by apply segment_free.
    split; by apply encodeURIComponent_inj.
  - unfold Ruler.namespace, Ruler.namespaceGroup. fold q. intros Heq%Hbase.
    assert (encodeURIComponent ns' +:+ "/" +:+ encodeURIComponent group' +:+ "?" +:+ q
            = (encodeURIComponent ns' +:+ "/" +:+ encodeURIComponent group')
                +:+ String "?" q) as Hright.
    { by rewrite !app_assoc_s. }
    rewrite Hright in Heq.
    apply (cut_at_first_unique "?") in Heq as [Heq _].
    + apply (f_equal (mem_ascii "/")) in Heq.
      rewrite mem_ascii_app in Heq. cbn [String.append mem_ascii] in Heq.
      rewrite Ascii.eqb_refl, segment_free, orb_true_r in Heq by done. done.
    + by apply segment_free.
    + rewrite mem_ascii_app. cbn [String.append mem_ascii].
      rewrite !segment_free by done. done.
Qed.

(** X17. The URLs a new instance gives for a namespace or a group carry
    the parameters of the configuration and nothing else: the query string
    is [source=ruler&noProxy=true], [source=ruler], [noProxy=true] or empty,
    and never holds a [dashboard_uid] or a [panel_id]. Every operation makes
    its own instance, so the filter of one [fetchRulerRules] call is in no
    later request. *)
Theorem new_instance_urls_carry_config_only
    (rulerConfig : RulerDataSourceConfig) (ns group : string) :
  let b := Ruler.rulerUrlBuilder rulerConfig in
  let query :=
    match customRulerEnabled rulerConfig, Ruler.apiVersion_is rulerConfig "legacy" with
    | true, true => "source=ruler&noProxy=true"
    | true, false => "source=ruler"
    | false, true => "noProxy=true"
    | false, false => ""
    end in
  query_of (Ruler.namespace ns b) = Some query
  /\ query_of (Ruler.namespaceGroup ns group b) = Some query
  /\ forall o,
      o = Ruler.OutUrl (Ruler.namespace ns b)
      \/ o = Ruler.OutUrl (Ruler.namespaceGroup ns group b) ->
      output_name_count "dashboard_uid" o = 0 /\ output_name_count "panel_id" o = 0.
Proof.
  intros b query.
  assert (toString (Ruler.rulerSearchParams b) = query) as Hq.
  { unfold b, query, Ruler.rulerUrlBuilder. cbn [Ruler.rulerSearchParams].
    by destruct (customRulerEnabled rulerConfig),
         (Ruler.apiVersion_is rulerConfig "legacy"). }
  split; [|split].
  - rewrite namespace_url, query_of_app by apply toString_no_question_mark. by rewrite Hq.
  - rewrite namespaceGroup_url, query_of_app by apply toString_no_question_mark.
    by rewrite Hq.
  - intros o Ho.
    assert (output_from (Ruler.basePath b) (Ruler.rulerSearchParams b) o) as Hfrom.
    { right. destruct Ho as [-> | ->]; eexists.
      - by rewrite namespace_url.
      - by rewrite namespaceGroup_url. }
    destruct (rulerUrlBuilder_params rulerConfig) as (_ & _ & _ & _ & Hd & Hp).
    cbv zeta in Hd, Hp. fold b in Hd, Hp.
    destruct (output_counts _ _ _ "dashboard_uid" "" Hfrom) as [_ ->]; [lia|].
    destruct (output_counts _ _ _ "panel_id" "" Hfrom) as [_ ->]; [lia|].
    done.
Qed.




(** X19. [namespace], [namespaceGroup] and [rules] without a
    [dashboardUID] to filter by never change the instance: after any series
    of such calls the instance is as it was, every URL returned has the same
    query string, and every target returned has the same params. *)
Theorem reads_leave_instance_unchanged (calls : list Ruler.BuilderCall) b :
  Forall (fun c => sets_dashboard_uid c = false) calls ->
  snd (Ruler.run calls b) = b
  /\ Forall (fun o =>
               match o with
               | Ruler.OutRules target =>
                   target = {| Ruler.target_url := Ruler.basePath b;
                               Ruler.target_params :=
                                 fromEntries (Ruler.rulerSearchParams b) |}
               | Ruler.OutUrl url =>
                   query_of url = Some (toString (Ruler.rulerSearchParams b))
               end)
       (fst (Ruler.run calls b)).
Proof.
  intros Hcalls. induction Hcalls as [|c calls Hc Hcalls IH]; [by split|].
  assert (Ruler.call c b
          = (match c with
             | Ruler.CallRules _ =>
                 Ruler.OutRules {| Ruler.target_url := Ruler.basePath b;
                                   Ruler.target_params :=
                                     fromEntries (Ruler.rulerSearchParams b) |}
             | Ruler.CallNamespace ns => Ruler.OutUrl (Ruler.namespace ns b)
             | Ruler.CallNamespaceGroup ns group =>
                 Ruler.OutUrl (Ruler.namespaceGroup ns group b)
             end, b)) as Hcall.
  { destruct b as [base p]. destruct c as [[f|] | |]; try done.
    cbn [sets_dashboard_uid] in Hc. unfold Ruler.call, Ruler.rules, Ruler.rules_params.
    by rewrite Hc. }
  cbn [Ruler.run]. rewrite Hcall. destruct IH as [Hb Hout].
  destruct (Ruler.run calls b) as [os b'']. cbn [fst snd] in *.
  split; [done|]. constructor; [|done].
  destruct c as [filter | ns | ns group]; [done | |].
  - rewrite namespace_url. apply query_of_app, toString_no_question_mark.
  - rewrite namespaceGroup_url. apply query_of_app, toString_no_question_mark.
Qed.

End BuilderMore.


(* ===================================================================== *)
(** ** Examples for the further properties *)
(* ===================================================================== *)

Section FurtherExamples.
Import Examples.
#[local] Existing Instance deps.

Example filtered_rules_request :
  snd (Ruler.fetchRulerRules grafana (Some panel7) (answering (JObj ∅)) [])
  = [get_request "/api/ruler/grafana/api/v1/rules"
       (Some {[ "dashboard_uid" := "d1 x"; "panel_id" := "7" ]})].
Proof. reflexivity. Qed.

Example slash_is_not_a_separator :
  Ruler.namespaceGroup "a/b" "c" (Ruler.rulerUrlBuilder mimir)
  <> Ruler.namespaceGroup "a" "b/c" (Ruler.rulerUrlBuilder mimir).
Proof. discriminate. Qed.

Lemma only_absent_404_is_swallowed_witness :
  let error := JObj (error_fields 404 "no rule groups found") in
  fst (Ruler.rulerGetRequest "/api/ruler/cortex/api/v1/rules" (JObj ∅) None
         (rejecting error) []) = Normal (JObj ∅)
  /\ exists s m,
      Get error "status" = Normal s /\ strict_eq_int s 404 = true
      /\ Ruler.data_message error = Normal m
      /\ (includes_phrase m "group does not exist"
          \/ includes_phrase m "no rule groups found").
Proof.
  intros error. split; [reflexivity|].
  exact (proj2 (only_absent_404_is_swallowed "/api/ruler/cortex/api/v1/rules" (JObj ∅) None
                  (rejecting error) [] error (JObj ∅) eq_refl eq_refl)).
Defined.

Lemma thrown_value_is_original_or_sentinel_witness :
  let error := JObj (error_fields 404 "unrelated issue") in
  let thrown := with_sentinel (error_fields 404 "unrelated issue")
                  (error_data "unrelated issue") in
  fst (Ruler.rulerGetRequest "/api/ruler/cortex/api/v1/rules" (JObj ∅) None
         (rejecting error) []) = Abrupt (ThrownValue thrown)
  /\ (thrown = error
      \/ exists s fields data,
          Get error "status" = Normal s
          /\ (strict_eq_int s 404 = true \/ strict_eq_int s 500 = true)
          /\ thrown = JObj fields
          /\ fields !! "data" = Some (JObj data)
          /\ data !! "message" = Some (JStr RULER_NOT_SUPPORTED_MSG)).
Proof.
  intros error thrown. split; [reflexivity|].
  exact (thrown_value_is_original_or_sentinel "/api/ruler/cortex/api/v1/rules" (JObj ∅)
           None (rejecting error) [] error thrown eq_refl eq_refl).
Defined.

Lemma other_statuses_rethrown_unread_witness :
  let error := JObj {[ "status" := JNum (NumInt 503);
                       "data" := JObj {[ "message" := JNum (NumInt 5) ]} ]} in
  Ruler.rulerGetRequest "/api/ruler/cortex/api/v1/rules" (JObj ∅) None (rejecting error) []
  = (Abrupt (ThrownValue error), [get_request "/api/ruler/cortex/api/v1/rules" None]).
Proof.
  intros error.
  assert (503 <> 404)%Z as H404 by lia. assert (503 <> 500)%Z as H500 by lia.
  exact (other_statuses_rethrown_unread "/api/ruler/cortex/api/v1/rules" (JObj ∅) None
           (rejecting error) [] error (JObj {[ "message" := JNum (NumInt 5) ]}) 503%Z
           eq_refl eq_refl eq_refl eq_refl H404 H500).
Defined.

Lemma message_without_includes_raises_witness :
  let data : gmap string JsVal := {[ "message" := JNum (NumInt 5) ]} in
  let fields : gmap string JsVal :=
    {[ "status" := JNum (NumInt 404); "data" := JObj data ]} in
  message_without_includes (JNum (NumInt 5)) = true
  /\ Ruler.rulerGetRequest "/api/ruler/cortex/api/v1/rules" (JObj ∅) None
       (rejecting (JObj fields)) []
     = (Abrupt ThrownTypeError, [get_request "/api/ruler/cortex/api/v1/rules" None]).
Proof.
  intros data fields. split; [reflexivity|].
  exact (message_without_includes_raises "/api/ruler/cortex/api/v1/rules" (JObj ∅) None
           (rejecting (JObj fields)) [] fields data 404%Z (JNum (NumInt 5))
           eq_refl eq_refl eq_refl eq_refl eq_refl (or_introl eq_refl)).
Defined.



Lemma group_fetchers_result_witness :
  transport_error (error_fields 404 "group does not exist") 404
    (error_data "group does not exist")
  /\ absent_phrases (error_data "group does not exist") = true
  /\ Ruler.fetchRulerRulesGroup "cortex" "ns" "g"
       (rejecting (JObj (error_fields 404 "group does not exist"))) []
     = (Normal JNull, [get_request (legacy_group_url "cortex" "ns" "g") None])
  /\ Ruler.fetchRulerRulesGroupV2 cortex "ns" "g"
       (rejecting (JObj (error_fields 404 "group does not exist"))) []
     = (Normal JNull,
        [get_request (Ruler.namespaceGroup "ns" "g" (Ruler.rulerUrlBuilder cortex)) None]).
Proof.
  assert (transport_error (error_fields 404 "group does not exist") 404
            (error_data "group does not exist")) as Ht.
  { repeat split. }
  assert (absent_phrases (error_data "group does not exist") = true) as Hp.
  { reflexivity. }
  destruct (group_fetchers_result cortex "cortex" "ns" "g"
              (rejecting (JObj (error_fields 404 "group does not exist"))) [])
    as (Hlegacy & Hv2 & _).
  split; [exact Ht|]. split; [exact Hp|].
  split; [exact (Hlegacy _ _ eq_refl Ht Hp) | exact (Hv2 _ _ eq_refl Ht Hp)].
Defined.

Lemma fetchRulerRulesNamespace_stored_value_witness :
  Ruler.fetchRulerRulesNamespace mimir "ns" (answering (JObj {[ "ns" := JNull ]})) []
  = (Normal (JArr []),
     [get_request (Ruler.namespace "ns" (Ruler.rulerUrlBuilder mimir)) None])
  /\ Ruler.fetchRulerRulesNamespace mimir "ns" (answering (JObj {[ "ns" := JArr [] ]})) []
     = (Normal (JArr []),
        [get_request (Ruler.namespace "ns" (Ruler.rulerUrlBuilder mimir)) None]).
Proof.
  split.
  - exact (fetchRulerRulesNamespace_stored_value mimir "ns"
             (answering (JObj {[ "ns" := JNull ]})) [] 200%Z {[ "ns" := JNull ]} JNull
             eq_refl eq_refl).
  - exact (fetchRulerRulesNamespace_stored_value mimir "ns"
             (answering (JObj {[ "ns" := JArr [] ]})) [] 200%Z {[ "ns" := JArr [] ]}
             (JArr []) eq_refl eq_refl).
Defined.

Lemma fetchRulerRulesNamespace_nullish_body_witness :
  Ruler.fetchRulerRulesNamespace mimir "ns" (answering JNull) []
  = (Abrupt ThrownTypeError,
     [get_request (Ruler.namespace "ns" (Ruler.rulerUrlBuilder mimir)) None]).
Proof.
  exact (fetchRulerRulesNamespace_nullish_body mimir "ns" (answering JNull) [] 200%Z JNull
           eq_refl eq_refl).
Defined.

Lemma legacy_group_url_is_v2_without_query_witness :
  snd (Ruler.fetchRulerRulesGroup "grafana" "ns" "g" (answering JNull) [])
  = [get_request "/api/ruler/grafana/api/v1/rules/ns/g" None]
  /\ snd (Ruler.fetchRulerRulesGroupV2 grafana "ns" "g" (answering JNull) [])
     = [get_request "/api/ruler/grafana/api/v1/rules/ns/g?" None].
Proof.
  assert (apiVersion grafana <> Some "config") as Hconfig by discriminate.
  assert (apiVersion grafana <> Some "legacy") as Hlegacy by discriminate.
  exact (legacy_group_url_is_v2_without_query grafana "ns" "g" (answering JNull) []
           eq_refl Hconfig Hlegacy).
Defined.

Lemma one_request_per_operation_witness :
  fst (Ruler.setRulerRuleGroup cortex "ns" (JObj ∅) (answering JUndefined) []) = Normal tt
  /\ snd (Ruler.setRulerRuleGroup cortex "ns" (JObj ∅) (answering JUndefined) [])
     = [write_request (Ruler.namespace "ns" (Ruler.rulerUrlBuilder cortex)) (JObj ∅)].
Proof.
  destruct (one_request_per_operation cortex "cortex" "ns" "g" (JObj ∅)
              (answering JUndefined) []) as (Hlog & _ & _ & _ & _ & _ & Hset & _).
  split; [|exact Hlog].
  exact (proj2 Hset (ex_intro _ {| response_status := 200; response_data := JUndefined |}
                       eq_refl)).
Defined.

Lemma urls_determine_names_witness :
  Ruler.namespace "a/b" (Ruler.rulerUrlBuilder cortex)
  <> Ruler.namespaceGroup "a" "b" (Ruler.rulerUrlBuilder cortex)
  /\ (Ruler.namespace "a/b" (Ruler.rulerUrlBuilder cortex)
      = Ruler.namespace "a/b" (Ruler.rulerUrlBuilder cortex) -> "a/b" = "a/b").
Proof.
  destruct (urls_determine_names (Ruler.rulerUrlBuilder cortex) "a/b" "a/b" "b" "b")
    as (Hns & _ & _).
  destruct (urls_determine_names (Ruler.rulerUrlBuilder cortex) "a/b" "a" "g" "b")
    as (_ & _ & Hne).
  split; [exact Hne | exact Hns].
Defined.

Lemma new_instance_urls_carry_config_only_witness :
  URLSearchParams.query_of (Ruler.namespace "ns" (Ruler.rulerUrlBuilder cortex))
  = Some "source=ruler&noProxy=true"
  /\ output_name_count "dashboard_uid"
       (Ruler.OutUrl (Ruler.namespace "ns" (Ruler.rulerUrlBuilder cortex))) = 0.
Proof.
  destruct (new_instance_urls_carry_config_only cortex "ns" "g") as (Hq & _ & Hcount).
  split; [exact Hq|]. exact (proj1 (Hcount _ (or_introl eq_refl))).
Defined.


Lemma reads_leave_instance_unchanged_witness :
  let calls := [Ruler.CallNamespace "a"; Ruler.CallRules None;
                Ruler.CallNamespaceGroup "a" "g"] in
  Forall (fun c => sets_dashboard_uid c = false) calls
  /\ snd (Ruler.run calls (Ruler.rulerUrlBuilder cortex)) = Ruler.rulerUrlBuilder cortex.
Proof.
  intros calls.
  assert (Forall (fun c => sets_dashboard_uid c = false) calls) as Hcalls.
  { repeat constructor. }
  split; [exact Hcalls|].
  exact (proj1 (reads_leave_instance_unchanged calls (Ruler.rulerUrlBuilder cortex) Hcalls)).
Defined.

End FurtherExamples.
